(** * Time Travel: fake-time state store, clock engine and propagation

    A shallow embedding of the TypeScript sources of the extension:
      - [Js]           the fragment of the host language the code relies on
                       (numbers with NaN, [Number.parseInt], Date time values);
      - [ReplaceDate]  the in-page content script (replace_date.ts):
                       [getFromStorage], [getTickStartTimestamp], [fakeNowDate],
                       [FakeDate], the [Intl.DateTimeFormat] wrappers and the toggle;
      - [Storage]      util/storage.ts: the durable global state and its writers;
      - [Worker]       scripts/worker.ts: message handler, per-tab evaluation,
                       the reload guard and the storage-change listener;
      - [ApiBridge]    scripts/api_bridge.ts: the external request handlers;
      - [Popup]        the popup helper [setGlobalFakeTime];
      - [System]       the browser events and the listeners they run;
      - [Spec]         the reference definitions taken from the specification;
      - [Sample]       a concrete host, extension and scenarios.

    The modules [JsFacts], [ClockEngine], [StateStore], [Writers] and
    [Coordinator] hold the properties.

    Conventions.  A JavaScript number is [NaN] or an exact integer: every
    timestamp the code handles is an integer number of milliseconds, and the
    rounding of integers above 2^53 is not modelled.  A [Date] object is
    represented by its time value.  Promises are sequenced in program order:
    an [async] function is a state transformer that may throw. *)

From Stdlib Require Import ZArith Ascii String List Lia Bool.
From stdpp Require Import base decidable option strings gmap pretty.

Local Open Scope string_scope.
Local Open Scope Z_scope.

(* ===================================================================== *)
(** * The host language fragment *)
(* ===================================================================== *)

Module Js.

(** A JavaScript number restricted to what the code computes with. *)
Inductive number : Type :=
| NaN
| Num (z : Z).

#[global] Instance number_eq_dec : EqDecision number.
Proof. solve_decision. Defined.

Definition add (a b : number) : number :=
  match a, b with
  | Num x, Num y => Num (x + y)
  | _, _ => NaN
  end.

Definition sub (a b : number) : number :=
  match a, b with
  | Num x, Num y => Num (x - y)
  | _, _ => NaN
  end.

Definition isNaN (n : number) : bool :=
  match n with NaN => true | Num _ => false end.

(** The largest time value a Date can hold: 8.64e15 ms on either side of the
    epoch. *)
Definition MAX_TIME : Z := 8640000000000000.

Definition valid_time (t : Z) : Prop := Z.abs t <= MAX_TIME.

(** ECMAScript [TimeClip]: what a Date constructor does to a numeric
    argument before storing it. *)
Definition TimeClip (t : number) : number :=
  match t with
  | NaN => NaN
  | Num z => if Z.abs z <=? MAX_TIME then Num z else NaN
  end.

(** A host call either completes normally or throws. *)
Inductive completion (A : Type) : Type :=
| Normal (a : A)
| Throw (e : string).
Arguments Normal {A} a.
Arguments Throw {A} e.

(** Truthiness of a [string | null | undefined] operand: only a non-empty
    string is truthy. *)
Definition truthy (s : option string) : bool :=
  match s with
  | Some (String _ _) => true
  | _ => false
  end.

(** ** [Number.parseInt] with the radix omitted *)

(** White space code units below 256 (TAB, LF, VT, FF, CR, SP, NBSP). *)
Definition isWhiteSpace (c : ascii) : bool :=
  let n := nat_of_ascii c in
  (((9 <=? n)%nat && (n <=? 13)%nat) || (n =? 32)%nat || (n =? 160)%nat).

Fixpoint trimStart (s : string) : string :=
  match s with
  | String c r => if isWhiteSpace c then trimStart r else s
  | EmptyString => EmptyString
  end.

(** Value of a code unit as a digit of the given radix, if it is one. *)
Definition digitValue (radix : Z) (c : ascii) : option Z :=
  let n := Z.of_nat (nat_of_ascii c) in
  let v :=
    if (48 <=? n) && (n <=? 57) then Some (n - 48)
    else if (97 <=? n) && (n <=? 122) then Some (n - 87)
    else if (65 <=? n) && (n <=? 90) then Some (n - 55)
    else None in
  match v with
  | Some d => if d <? radix then Some d else None
  | None => None
  end.

(** Longest prefix of radix digits, read as an integer; [acc] is [None]
    until the first digit has been seen. *)
Fixpoint parseDigits (radix : Z) (s : string) (acc : option Z) : option Z :=
  match s with
  | EmptyString => acc
  | String c r =>
      match digitValue radix c with
      | Some d => parseDigits radix r (Some (radix * default 0 acc + d))
      | None => acc
      end
  end.

Definition stripSign (s : string) : Z * string :=
  match s with
  | String "-" r => (-1, r)
  | String "+" r => (1, r)
  | _ => (1, s)
  end.

Definition stripHexPrefix (s : string) : Z * string :=
  match s with
  | String "0" (String "x" r) => (16, r)
  | String "0" (String "X" r) => (16, r)
  | _ => (10, s)
  end.

Definition parseInt (s : string) : number :=
  let '(sign, s1) := stripSign (trimStart s) in
  let '(radix, s2) := stripHexPrefix s1 in
  match parseDigits radix s2 None with
  | None => NaN
  | Some m => Num (sign * m)
  end.

(** [Number.parseInt] as a host call: it always completes normally. *)
Definition Number_parseInt (s : string) : completion number :=
  Normal (parseInt s).

(** ** Date objects *)

(** A Date is determined by its time value ([NaN] for an Invalid Date). *)
Record Date : Type := mkDate { getTime : number }.

#[global] Instance Date_eq_dec : EqDecision Date.
Proof. solve_decision. Defined.

(** Values that reach the Date constructor and the formatting methods. *)
Inductive value : Type :=
| VUndefined
| VNull
| VBool (b : bool)
| VNumber (n : number)
| VString (s : string)
| VDate (d : Date).

(** The operand test of [??]. *)
Definition isNullish (v : value) : bool :=
  match v with
  | VUndefined | VNull => true
  | _ => false
  end.

(** What the page's host provides and the code does not define: the
    implementation-defined parts of [Date] and the genuine
    [Intl.DateTimeFormat]. *)
Class PageHost : Type := {
  (** [Date.parse]: time value of a date string, [NaN] when unparsable *)
  Date_parse : string -> number;
  (** time value of [new Date(y, m, ...)], two or more arguments (local time) *)
  Date_fromFields : list value -> number;
  (** [Date.prototype.toString] *)
  Date_toString : Date -> string;
  (** a genuine formatter object, and the result type of formatToParts *)
  Formatter : Type;
  Parts : Type;
  Intl_DateTimeFormat : value -> value -> Formatter;
  Intl_format : Formatter -> value -> string;
  Intl_formatToParts : Formatter -> value -> Parts;
  Intl_formatRange : Formatter -> value -> value -> string;
  Intl_formatRangeToParts : Formatter -> value -> value -> Parts;
}.

Section Dates.
Context `{PageHost}.

(** [new OriginalDate()] at real instant [now]. *)
Definition newDate_now (now : Z) : Date := mkDate (Num now).

(** [new OriginalDate(s)] for a string [s]. *)
Definition newDate_string (s : string) : Date :=
  mkDate (TimeClip (Date_parse s)).

(** [new OriginalDate(n)] for a number [n]. *)
Definition newDate_number (n : number) : Date := mkDate (TimeClip n).

(** [new OriginalDate(...args)]: the genuine constructor on an argument
    list, at real instant [now]. *)
Definition OriginalDate_new (now : Z) (args : list value) : Date :=
  match args with
  | [] => newDate_now now
  | [VDate d] => d
  | [VString s] => newDate_string s
  | [VNumber n] => newDate_number n
  | [VBool b] => newDate_number (Num (if b then 1 else 0))
  | [VNull] => newDate_number (Num 0)
  | [VUndefined] => newDate_number NaN
  | _ => mkDate (TimeClip (Date_fromFields args))
  end.
End Dates.

End Js.

(* ===================================================================== *)
(** * replace_date.ts: the in-page clock engine *)
(* ===================================================================== *)

Module ReplaceDate.
Import Js.

Definition FAKE_DATE_STORAGE_KEY : string := "timeTravelDate".
Definition TICK_START_STORAGE_KEY : string := "timeTravelTickStartTimestamp".

(** [window.sessionStorage] of one browsing context.  In a sandboxed or
    privacy-restricted document every access raises. *)
Inductive SessionStorage : Type :=
| Blocked
| Items (m : gmap string string).

Definition getItem (ss : SessionStorage) (key : string)
  : completion (option string) :=
  match ss with
  | Blocked => Throw "SecurityError"
  | Items m => Normal (m !! key)
  end.

Definition setItem (ss : SessionStorage) (key val : string)
  : completion SessionStorage :=
  match ss with
  | Blocked => Throw "SecurityError"
  | Items m => Normal (Items (<[key := val]> m))
  end.

Definition removeItem (ss : SessionStorage) (key : string)
  : completion SessionStorage :=
  match ss with
  | Blocked => Throw "SecurityError"
  | Items m => Normal (Items (delete key m))
  end.

(** [try { return sessionStorage.getItem(key) } catch { return null }] *)
Definition getFromStorage (ss : SessionStorage) (key : string) : option string :=
  match getItem ss key with
  | Normal v => v
  | Throw _ => None
  end.

(** [null] when the key is absent, otherwise whatever [parseInt] makes of
    the stored string; the [catch] arm guards the [parseInt] call. *)
Definition getTickStartTimestamp (ss : SessionStorage) : option number :=
  match getFromStorage ss TICK_START_STORAGE_KEY with
  | None => None
  | Some startTimestamp =>
      match Number_parseInt startTimestamp with
      | Normal n => Some n
      | Throw _ => None
      end
  end.

(** Which constructor the global names [Date] and [Intl.DateTimeFormat]
    are bound to. *)
Inductive Binding : Type :=
| Original
| Fake.

(** The page as the content script sees it. *)
Record Page : Type := mkPage {
  sessionStorage : SessionStorage;
  DateGlobal : Binding;
  IntlDateTimeFormatGlobal : Binding;
}.

Section Engine.
Context `{PageHost}.

(** The value every faked read resolves through, at real instant [now]. *)
Definition fakeNowDate (ss : SessionStorage) (now : Z) : Date :=
  match getFromStorage ss FAKE_DATE_STORAGE_KEY with
  | Some fakeDate =>
      let fakeDateObject := newDate_string fakeDate in
      match getTickStartTimestamp ss with
      | None => fakeDateObject
      | Some startTimestamp =>
          let elapsed := sub (Num now) startTimestamp in
          newDate_number (add (getTime fakeDateObject) elapsed)
      end
  | None => newDate_now now
  end.

(** [new FakeDate(...args)]: only the empty argument list is replaced. *)
Definition FakeDate_new (ss : SessionStorage) (now : Z) (args : list value)
  : Date :=
  let args' :=
    match args with
    | [] => [VDate (fakeNowDate ss now)]
    | _ => args
    end in
  OriginalDate_new now args'.

(** [new Date()] through the current global binding. *)
Definition global_new_Date (p : Page) (now : Z) : Date :=
  match DateGlobal p with
  | Fake => FakeDate_new (sessionStorage p) now []
  | Original => OriginalDate_new now []
  end.

(** [FakeDate(...args)] called without [new]: the arguments are ignored and
    the current time is rendered as a string. *)
Definition FakeDate_call (p : Page) (now : Z) (args : list value) : string :=
  Date_toString (global_new_Date p now).

(** [FakeDate.now = () => new Date().getTime()] *)
Definition FakeDate_now (p : Page) (now : Z) : number :=
  getTime (global_new_Date p now).

(** A [FakeIntlDateTimeFormat] instance: it wraps the genuine formatter. *)
Record FakeIntlDateTimeFormat : Type := mkFakeIntl {
  _originalObject : Formatter;
}.

Definition FakeIntlDateTimeFormat_new (locale options : value)
  : FakeIntlDateTimeFormat :=
  mkFakeIntl (Intl_DateTimeFormat locale options).

(** [date ?? fakeNowDate()] *)
Definition orFakeNow (ss : SessionStorage) (now : Z) (date : value) : value :=
  if isNullish date then VDate (fakeNowDate ss now) else date.

Definition format (this : FakeIntlDateTimeFormat) (ss : SessionStorage)
  (now : Z) (date : value) : string :=
  Intl_format (_originalObject this) (orFakeNow ss now date).

Definition formatToParts (this : FakeIntlDateTimeFormat) (ss : SessionStorage)
  (now : Z) (date : value) : Parts :=
  Intl_formatToParts (_originalObject this) (orFakeNow ss now date).

Definition formatRange (this : FakeIntlDateTimeFormat)
  (startDate endDate : value) : string :=
  Intl_formatRange (_originalObject this) startDate endDate.

Definition formatRangeToParts (this : FakeIntlDateTimeFormat)
  (startDate endDate : value) : Parts :=
  Intl_formatRangeToParts (_originalObject this) startDate endDate.

End Engine.

(** Rebind the globals according to the session storage. *)
Definition timeTravelCheckToggle (p : Page) : Page :=
  match getFromStorage (sessionStorage p) FAKE_DATE_STORAGE_KEY with
  | Some _ => mkPage (sessionStorage p) Fake Fake
  | None => mkPage (sessionStorage p) Original Original
  end.

End ReplaceDate.

(* ===================================================================== *)
(** * util/storage.ts: the durable global state *)
(* ===================================================================== *)

Module Storage.
Import Js.

Record GlobalState : Type := mkGlobalState {
  isGlobalEnabled : bool;
  fakeDate : option string;
  tickStartTimestamp : option string;
  isClockStopped : bool;
}.

#[global] Instance GlobalState_eq_dec : EqDecision GlobalState.
Proof. solve_decision. Defined.

(** [Partial<GlobalState>]: every property may be missing; a present
    [fakeDate] or [tickStartTimestamp] may still be [null]. *)
Record PartialGlobalState : Type := mkPartial {
  p_isGlobalEnabled : option bool;
  p_fakeDate : option (option string);
  p_tickStartTimestamp : option (option string);
  p_isClockStopped : option bool;
}.

Definition DEFAULT_STATE : GlobalState :=
  {| isGlobalEnabled := false;
     fakeDate := None;
     tickStartTimestamp := None;
     isClockStopped := true |}.

(** The object [{}]. *)
Definition noProperties : PartialGlobalState :=
  {| p_isGlobalEnabled := None;
     p_fakeDate := None;
     p_tickStartTimestamp := None;
     p_isClockStopped := None |}.

(** [{ ...base, ...over }] *)
Definition spread (base : GlobalState) (over : PartialGlobalState)
  : GlobalState :=
  {| isGlobalEnabled := default (isGlobalEnabled base) (p_isGlobalEnabled over);
     fakeDate := default (fakeDate base) (p_fakeDate over);
     tickStartTimestamp :=
       default (tickStartTimestamp base) (p_tickStartTimestamp over);
     isClockStopped := default (isClockStopped base) (p_isClockStopped over) |}.

(** A full state seen as the record that gets persisted. *)
Definition allProperties (g : GlobalState) : PartialGlobalState :=
  {| p_isGlobalEnabled := Some (isGlobalEnabled g);
     p_fakeDate := Some (fakeDate g);
     p_tickStartTimestamp := Some (tickStartTimestamp g);
     p_isClockStopped := Some (isClockStopped g) |}.

(** [chrome.storage.local], as far as the key 'timeTravelGlobalState' goes:
    the persisted record, and whether reads and writes currently succeed. *)
Record LocalArea : Type := mkLocalArea {
  readable : bool;
  writable : bool;
  stored : option PartialGlobalState;
}.

(** An [async] function over the storage area: it returns or throws, and
    leaves the area in some state either way. *)
Definition async (A : Type) : Type := LocalArea -> completion A * LocalArea.

Definition ret {A : Type} (x : A) : async A := fun a => (Normal x, a).

Definition throw {A : Type} (e : string) : async A := fun a => (Throw e, a).

Definition bind {A B : Type} (m : async A) (k : A -> async B) : async B :=
  fun a =>
    match m a with
    | (Normal x, a') => k x a'
    | (Throw e, a') => (Throw e, a')
    end.

Definition try_catch {A : Type} (body : async A) (handler : string -> async A)
  : async A :=
  fun a =>
    match body a with
    | (Normal x, a') => (Normal x, a')
    | (Throw e, a') => handler e a'
    end.

Declare Scope async_scope.
Delimit Scope async_scope with async.
Notation "x <- m ;; k" := (bind m (fun x => k))
  (at level 100, m at next level, right associativity) : async_scope.
Notation "'await' m ;; k" := (bind m (fun _ => k))
  (at level 100, m at next level, right associativity) : async_scope.
Local Open Scope async_scope.

Definition local_get : async (option PartialGlobalState) :=
  fun a =>
    if readable a then (Normal (stored a), a)
    else (Throw "storage.local.get failed", a).

Definition local_set (v : PartialGlobalState) : async unit :=
  fun a =>
    if writable a
    then (Normal tt, mkLocalArea (readable a) (writable a) (Some v))
    else (Throw "storage.local.set failed", a).

Definition local_remove : async unit :=
  fun a =>
    if writable a
    then (Normal tt, mkLocalArea (readable a) (writable a) None)
    else (Throw "storage.local.remove failed", a).

Definition getGlobalState : async GlobalState :=
  try_catch
    (storedState <- local_get ;;
     ret (spread DEFAULT_STATE (default noProperties storedState)))
    (fun _ => ret DEFAULT_STATE).

Definition setGlobalState (state : PartialGlobalState) : async unit :=
  try_catch
    (currentState <- getGlobalState ;;
     local_set (allProperties (spread currentState state)))
    (fun error => throw error).

Definition updateGlobalFakeDate (fakeDate : option string) : async unit :=
  setGlobalState
    {| p_isGlobalEnabled := None;
       p_fakeDate := Some fakeDate;
       p_tickStartTimestamp := None;
       p_isClockStopped := None |}.

(** [tickStartTimestamp] is [undefined] ([None]), [null] ([Some None]) or a
    string; [now] is what [Date.now()] returns during the call. *)
Definition updateGlobalClockState (now : Z) (isClockStopped : bool)
  (tickStartTimestamp : option (option string)) : async unit :=
  let finalTickStartTimestamp :=
    if negb isClockStopped && negb (truthy (mjoin tickStartTimestamp))
    then Some (Some (pretty now))
    else if isClockStopped then Some None
    else tickStartTimestamp in
  setGlobalState
    {| p_isGlobalEnabled := None;
       p_fakeDate := None;
       p_tickStartTimestamp := finalTickStartTimestamp;
       p_isClockStopped := Some isClockStopped |}.

Definition setGlobalEnabled (enabled : bool) : async unit :=
  setGlobalState
    {| p_isGlobalEnabled := Some enabled;
       p_fakeDate := None;
       p_tickStartTimestamp := None;
       p_isClockStopped := None |}.

Definition clearGlobalState : async unit :=
  try_catch local_remove (fun error => throw error).

(** The state a reader obtains from an area. *)
Definition currentState (a : LocalArea) : GlobalState :=
  match (getGlobalState a).1 with
  | Normal g => g
  | Throw _ => DEFAULT_STATE
  end.

End Storage.

(** What the extension's own missing modules provide: the allowed host
    list of config/allowedUrls.js and [parseDate] of util/common.ts
    ([null] for an unparsable input). *)
Class Extension : Type := {
  allowedUrls : list string;
  parseDate : string -> option string;
}.

(** Replies sent back over the message channel. *)
Record Response : Type := mkResponse {
  success : bool;
  error : option string;
  message : option string;
}.

(* ===================================================================== *)
(** * scripts/worker.ts: the background coordinator *)
(* ===================================================================== *)

Module Worker.
Import Js Storage ReplaceDate.
Local Open Scope async_scope.

(** A tab as the coordinator can observe and reach it: its URL, if known,
    and the session storage its frames share. *)
Record Tab : Type := mkTab {
  url : option string;
  storage : SessionStorage;
}.

Record World : Type := mkWorld {
  local : LocalArea;
  tabs : gmap nat Tab;
  activeTabs : gset nat;
  reloadedTabs : gset nat;
  (** every [chrome.tabs.reload] issued so far, latest first *)
  reloads : list nat;
}.

(** The [updateGlobalStateFromAPI] arm of the message listener. *)
Definition onMessage_updateGlobalStateFromAPI (now : Z)
  (fakeDate : option string) (isClockStopped : option bool) : async Response :=
  try_catch
    (let tickStartTimestamp :=
       if default false isClockStopped then None else Some (pretty now) in
     await setGlobalState
       {| p_isGlobalEnabled := Some true;
          p_fakeDate := Some fakeDate;
          p_isClockStopped := Some (default true isClockStopped);
          p_tickStartTimestamp := Some tickStartTimestamp |} ;;
     ret (mkResponse true None (Some "Global state updated successfully")))
    (fun error => ret (mkResponse false (Some error) None)).

(** The [getGlobalState] arm. *)
Definition onMessage_getGlobalState : async GlobalState := getGlobalState.

Definition restrictedProtocols : list string :=
  ["chrome://"; "chrome-extension://"; "moz-extension://"; "about:";
   "data:"; "file://"; "view-source:"].

Definition isRestrictedUrl (url : string) : bool :=
  existsb (fun protocol => String.prefix protocol url) restrictedProtocols.

Definition andThen {A B : Type} (c : completion A) (k : A -> completion B)
  : completion B :=
  match c with
  | Normal x => k x
  | Throw e => Throw e
  end.

(** The function injected into the page: it copies the global state into
    the session storage, or removes the keys; a failure is logged. *)
Definition seedSessionStorage (state : GlobalState) (ss : SessionStorage)
  : SessionStorage :=
  let attempt :=
    if isGlobalEnabled state && truthy (fakeDate state) then
      andThen (setItem ss FAKE_DATE_STORAGE_KEY (default "" (fakeDate state)))
        (fun ss1 =>
           if truthy (tickStartTimestamp state)
           then setItem ss1 TICK_START_STORAGE_KEY
                  (default "" (tickStartTimestamp state))
           else removeItem ss1 TICK_START_STORAGE_KEY)
    else
      andThen (removeItem ss FAKE_DATE_STORAGE_KEY)
        (fun ss1 => removeItem ss1 TICK_START_STORAGE_KEY) in
  match attempt with
  | Normal ss' => ss'
  | Throw _ => ss
  end.

Section Coordinator.
Context `{Extension}.

Definition isAllowedWebsite (url : string) : bool :=
  existsb (fun pattern => String.prefix pattern url) allowedUrls.

(** [tab.url && !isRestrictedUrl(tab.url) && isAllowedWebsite(tab.url)] *)
Definition eligible (tab : Tab) : bool :=
  match url tab with
  | Some u => truthy (Some u) && negb (isRestrictedUrl u) && isAllowedWebsite u
  | None => false
  end.

(** One evaluation pass over one tab.  The badge update that ends the
    function only touches the toolbar and is left out. *)
Definition applyGlobalStateToTab (tabId : nat) (w : World) : World :=
  let globalState := currentState (local w) in
  match tabs w !! tabId with
  | None => w
  | Some tab =>
      if negb (truthy (url tab)) || isRestrictedUrl (default "" (url tab))
      then w
      else if negb (isAllowedWebsite (default "" (url tab))) then w
      else if isGlobalEnabled globalState && truthy (fakeDate globalState)
              && negb (bool_decide (tabId ∈ reloadedTabs w))
      then
        mkWorld (local w) (tabs w) (activeTabs w)
          ({[tabId]} ∪ reloadedTabs w) (tabId :: reloads w)
      else
        let tab' := mkTab (url tab) (seedSessionStorage globalState (storage tab)) in
        mkWorld (local w) (<[tabId := tab']> (tabs w)) (activeTabs w)
          (reloadedTabs w) (reloads w)
  end.

(** The loop body of [applyGlobalStateToAllTabs] for one queried tab. *)
Definition applyToQueried (w : World) (entry : nat * Tab) : World :=
  if bool_decide (entry.1 ≠ 0%nat) && eligible entry.2
  then applyGlobalStateToTab entry.1 w
  else w.

Definition applyGlobalStateToAllTabs (w : World) : World :=
  let globalState := currentState (local w) in
  if negb (isGlobalEnabled globalState) then w
  else foldl applyToQueried w (map_to_list (tabs w)).

(** [chrome.storage.onChanged] for the key 'timeTravelGlobalState'. *)
Definition onStorageChanged (w : World) : World :=
  applyGlobalStateToAllTabs
    (mkWorld (local w) (tabs w) (activeTabs w) ∅ (reloads w)).

(** [chrome.tabs.onCreated] *)
Definition onCreated (tabId : nat) (w : World) : World :=
  if bool_decide (tabId ≠ 0%nat) then applyGlobalStateToTab tabId w else w.

(** [chrome.tabs.onUpdated]; [tab] is the tab object handed to the listener. *)
Definition onUpdated (tabId : nat) (statusLoading : bool) (tab : Tab)
  (w : World) : World :=
  if statusLoading && eligible tab then applyGlobalStateToTab tabId w else w.

(** [chrome.tabs.onRemoved] *)
Definition onRemoved (tabId : nat) (w : World) : World :=
  mkWorld (local w) (tabs w) (activeTabs w ∖ {[tabId]})
    (reloadedTabs w ∖ {[tabId]}) (reloads w).

(** The [active] arm of the message listener. *)
Definition onMessage_active (senderTab : nat) (w : World) : World :=
  if bool_decide (senderTab ≠ 0%nat)
  then mkWorld (local w) (tabs w) ({[senderTab]} ∪ activeTabs w)
         (reloadedTabs w) (reloads w)
  else w.

(** The [reapplyGlobalState] arm. *)
Definition onMessage_reapplyGlobalState (w : World) : World :=
  applyGlobalStateToAllTabs w.

End Coordinator.

End Worker.

(* ===================================================================== *)
(** * scripts/api_bridge.ts: requests of external pages *)
(* ===================================================================== *)

Module ApiBridge.
Import Js Storage.
Local Open Scope async_scope.

Record TimeTravelAPIRequest : Type := mkRequest {
  requestId : option string;
  fakeDate : value;
  isClockStopped : option bool;
}.

(** [chrome.runtime.sendMessage]: it rejects when the background script
    cannot be reached. *)
Definition sendMessage (connected : bool) (handler : async Response)
  : async Response :=
  if connected then handler
  else throw "Could not establish connection. Receiving end does not exist.".

Section Bridge.
Context `{PageHost}.

Definition handleUpdateGlobalState (connected : bool) (now : Z)
  (data : TimeTravelAPIRequest) : async Response :=
  try_catch
    (match fakeDate data with
     | VString (String c r) =>
         let s := String c r in
         let testDate := newDate_string s in
         if isNaN (getTime testDate)
         then ret (mkResponse false (Some "Invalid date format") None)
         else
           sendMessage connected
             (Worker.onMessage_updateGlobalStateFromAPI now (Some s)
                (Some (default true (isClockStopped data))))
     | _ =>
         ret (mkResponse false
                (Some "fakeDate is required and must be a string") None)
     end)
    (fun error => ret (mkResponse false (Some error) None)).

End Bridge.

Definition handleDisableTimeTravel (connected : bool) (now : Z)
  (data : TimeTravelAPIRequest) : async Response :=
  try_catch
    (sendMessage connected
       (Worker.onMessage_updateGlobalStateFromAPI now None (Some true)))
    (fun error => ret (mkResponse false (Some error) None)).

End ApiBridge.

(* ===================================================================== *)
(** * The popup's global switch *)
(* ===================================================================== *)

Module Popup.
Import Js Storage.
Local Open Scope async_scope.

Section Popup.
Context `{Extension}.

(** Enable or disable global fake time.  [registerContentScript] does not
    touch the store and its failure is swallowed, so it leaves no trace
    here. *)
Definition setGlobalFakeTime (now : Z) (enabled : bool)
  (fakeDate : option string) (isClockStopped : option bool) : async unit :=
  if enabled && truthy fakeDate then
    match parseDate (default "" fakeDate) with
    | None => throw "Invalid date format!"
    | Some parsedDate =>
        await updateGlobalFakeDate (Some parsedDate) ;;
        await updateGlobalClockState now (default true isClockStopped) None ;;
        setGlobalEnabled true
    end
  else
    await setGlobalEnabled false ;;
    await updateGlobalFakeDate None ;;
    updateGlobalClockState now true (Some None).

End Popup.

End Popup.

(* ===================================================================== *)
(** * The extension as a whole: browser events and the listeners they run *)
(* ===================================================================== *)

Module System.
Import Js Storage ReplaceDate Worker.

(** The background script is driven by events.  Each listener is run to
    completion before the next event is taken; a write to the store and
    the change notification it causes are separate events. *)

Inductive Event : Type :=
(** a tab appears; [chrome.tabs.onCreated] fires *)
| TabCreated (tabId : nat) (tab : Tab)
(** a tab changes (navigation, load progress); [chrome.tabs.onUpdated] fires *)
| TabUpdated (tabId : nat) (statusLoading : bool) (tab : Tab)
(** a tab closes; [chrome.tabs.onRemoved] fires *)
| TabRemoved (tabId : nat)
(** a content script reports itself with the [active] message *)
| ContentScriptActive (tabId : nat)
(** the [reapplyGlobalState] message *)
| ReapplyRequested
(** [chrome.storage.onChanged] fires for the global state record *)
| GlobalStateChanged
(** an external page posts TIME_TRAVEL_UPDATE_GLOBAL_STATE *)
| ApiUpdate (connected : bool) (now : Z) (data : ApiBridge.TimeTravelAPIRequest)
(** an external page posts TIME_TRAVEL_DISABLE *)
| ApiDisable (connected : bool) (now : Z) (data : ApiBridge.TimeTravelAPIRequest)
(** the popup calls [setGlobalFakeTime] *)
| PopupSetGlobalFakeTime (now : Z) (enabled : bool) (fakeDate : option string)
    (isClockStopped : option bool).

Definition withLocal (w : World) (a : LocalArea) : World :=
  mkWorld a (tabs w) (activeTabs w) (reloadedTabs w) (reloads w).

Definition withTabs (w : World) (t : gmap nat Tab) : World :=
  mkWorld (local w) t (activeTabs w) (reloadedTabs w) (reloads w).

Section Step.
Context `{PageHost} `{Extension}.

Definition step (w : World) (e : Event) : World :=
  match e with
  | TabCreated tabId tab =>
      onCreated tabId (withTabs w (<[tabId := tab]> (tabs w)))
  | TabUpdated tabId statusLoading tab =>
      onUpdated tabId statusLoading tab (withTabs w (<[tabId := tab]> (tabs w)))
  | TabRemoved tabId =>
      onRemoved tabId (withTabs w (delete tabId (tabs w)))
  | ContentScriptActive tabId => onMessage_active tabId w
  | ReapplyRequested => onMessage_reapplyGlobalState w
  | GlobalStateChanged => onStorageChanged w
  | ApiUpdate connected now data =>
      withLocal w (ApiBridge.handleUpdateGlobalState connected now data (local w)).2
  | ApiDisable connected now data =>
      withLocal w (ApiBridge.handleDisableTimeTravel connected now data (local w)).2
  | PopupSetGlobalFakeTime now enabled fakeDate isClockStopped =>
      withLocal w
        (Popup.setGlobalFakeTime now enabled fakeDate isClockStopped (local w)).2
  end.

Definition run (w : World) (events : list Event) : World :=
  foldl step w events.

End Step.

(** Events that run the storage-change listener, which empties the reload
    guard, or that end the life of tab [t]. *)
Definition resetsGuard (t : nat) (e : Event) : bool :=
  match e with
  | GlobalStateChanged => true
  | TabRemoved tabId => bool_decide (tabId = t)
  | _ => false
  end.

(** How many forced reloads of tab [t] have been issued. *)
Definition reloadCount (t : nat) (w : World) : nat :=
  length (filter (fun x => x = t) (reloads w)).

(** Between [w] and [w'] the guard did its work for tab [t]: a marked tab
    stays marked and is not reloaded; an unmarked tab is reloaded at most
    once, and is marked when it is. *)
Definition guardKept (t : nat) (w w' : World) : Prop :=
  (t ∈ reloadedTabs w ->
   t ∈ reloadedTabs w' /\ reloadCount t w' = reloadCount t w)
  /\ (t ∉ reloadedTabs w ->
      reloadCount t w' = reloadCount t w
      \/ (reloadCount t w' = S (reloadCount t w) /\ t ∈ reloadedTabs w')).

End System.

(* ===================================================================== *)
(** * Reference definitions of the specification *)
(* ===================================================================== *)

Module Spec.
Import Js Storage ReplaceDate.

(** The per-context mirror of the fake-time parameters: the shape of the
    global configuration without [enabled]. *)
Record ContextState : Type := mkContextState {
  fakeInstant : option number;
  tickAnchor : option number;
  clockStopped : bool;
}.


(** [clockStopped == true <-> tickAnchor == None], for a context *)
Definition contextInvariant (c : ContextState) : Prop :=
  clockStopped c = true <-> tickAnchor c = None.

(** The two invariants of the global configuration. *)
Definition clockInvariant (g : GlobalState) : Prop :=
  isClockStopped g = true <-> tickStartTimestamp g = None.

Definition enabledInvariant (g : GlobalState) : Prop :=
  fakeDate g = None <-> isGlobalEnabled g = false.

(** The documented default: disabled, no fake instant, stopped, no anchor. *)
Definition documentedDefault : GlobalState :=
  mkGlobalState false None None true.

Section Abstraction.
Context `{PageHost}.

(** The two entries under which the coordinator seeds a context. *)
Definition seededDateKey : string := "timeTravelDate".
Definition seededAnchorKey : string := "timeTravelTickStartTimestamp".

(** The entry a session storage holds under a key, read off the storage
    itself and not through the engine; a storage that cannot be accessed
    shows no entry. *)
Definition storedEntry (ss : SessionStorage) (key : string) : option string :=
  match ss with
  | Blocked => None
  | Items m => m !! key
  end.

(** The context state a session storage stands for: the fake instant is
    the time value of the date string stored in it, the tick anchor the
    number the stored anchor string denotes, and the clock counts as
    stopped exactly when no anchor is stored.  A storage that cannot be
    accessed stands for the absent state. *)
Definition contextStateOf (ss : SessionStorage) : ContextState :=
  let anchor := storedEntry ss seededAnchorKey in
  {| fakeInstant :=
       (fun date => TimeClip (Date_parse date)) <$> storedEntry ss seededDateKey;
     tickAnchor := parseInt <$> anchor;
     clockStopped := bool_decide (anchor = None) |}.

End Abstraction.

End Spec.

(* ===================================================================== *)
(** * Concrete data for the examples *)
(* ===================================================================== *)

Module Sample.
Import Js Storage ReplaceDate Worker System.

(** A page host for concrete runs.  Its [Date.parse] knows the one ISO
    string the examples use (2023-12-25T10:30:00.000Z is 1703500200000 ms
    after the epoch) and rejects everything else; formatting renders a
    time value as its decimal digits. *)
Definition render (v : value) : string :=
  match v with
  | VDate (mkDate (Num z)) => pretty z
  | VNumber (Num z) => pretty z
  | _ => "Invalid Date"
  end.

Definition host : PageHost :=
  {| Date_parse := fun s =>
       if String.eqb s "2023-12-25T10:30:00.000Z" then Num 1703500200000
       else NaN;
     Date_fromFields := fun _ => NaN;
     Date_toString := fun d => render (VDate d);
     Formatter := unit;
     Parts := list string;
     Intl_DateTimeFormat := fun _ _ => tt;
     Intl_format := fun _ v => render v;
     Intl_formatToParts := fun _ v => [render v];
     Intl_formatRange := fun _ a b => render a ++ "-" ++ render b;
     Intl_formatRangeToParts := fun _ a b => [render a; render b] |}.

(** An extension that allows one site; its [parseDate] accepts what the
    sample host parses. *)
Definition extension : Extension :=
  {| allowedUrls := ["https://example.com"];
     parseDate := fun s =>
       if isNaN (Date_parse (PageHost := host) s) then None else Some s |}.

Definition christmas : string := "2023-12-25T10:30:00.000Z".

(** Session storages: nothing seeded, seeded and stopped, seeded and
    running since 1700000000000, seeded with an anchor that is no number. *)
Definition unseeded : SessionStorage := Items ∅.

Definition stopped : SessionStorage :=
  Items {[ FAKE_DATE_STORAGE_KEY := christmas ]}.

Definition running : SessionStorage :=
  Items (<[ TICK_START_STORAGE_KEY := "1700000000000" ]>
           {[ FAKE_DATE_STORAGE_KEY := christmas ]}).

Definition brokenAnchor : SessionStorage :=
  Items (<[ TICK_START_STORAGE_KEY := "abc" ]>
           {[ FAKE_DATE_STORAGE_KEY := christmas ]}).

(** A working storage area holding nothing, and one holding [g]. *)
Definition emptyArea : LocalArea := mkLocalArea true true None.

Definition areaOf (g : GlobalState) : LocalArea :=
  mkLocalArea true true (Some (allProperties g)).

(** Global states: faking the sample date with the clock stopped. *)
Definition enabledStopped : GlobalState :=
  mkGlobalState true (Some christmas) None true.

(** A tab showing a page of the allowed site. *)
Definition openTab (ss : SessionStorage) : Tab :=
  mkTab (Some "https://example.com/app") ss.

(** One open tab, nothing persisted, nothing reloaded yet. *)
Definition freshWorld : World :=
  mkWorld emptyArea {[ 1%nat := openTab unseeded ]} ∅ ∅ [].

(** The same tab, seeded and already reloaded once under an enabled state. *)
Definition seededWorld : World :=
  mkWorld (areaOf enabledStopped) {[ 1%nat := openTab stopped ]}
    {[ 1%nat ]} {[ 1%nat ]} [1%nat].

Definition updateRequest (isStopped : bool) : ApiBridge.TimeTravelAPIRequest :=
  ApiBridge.mkRequest None (VString christmas) (Some isStopped).

(** Two configuration changes in a row, each followed by its change
    notification; no tab event in between. *)
Definition twoUpdates : list Event :=
  [ ApiUpdate true 1700000000000 (updateRequest true);
    GlobalStateChanged;
    ApiUpdate true 1700000001000 (updateRequest false);
    GlobalStateChanged ].

(** The popup switches global fake time off; the change is notified. *)
Definition popupDisable : list Event :=
  [ PopupSetGlobalFakeTime 1700000002000 false None None;
    GlobalStateChanged ].

(** An external page asks to disable; the change is notified. *)
Definition apiDisable : list Event :=
  [ ApiDisable true 1700000002000 (ApiBridge.mkRequest None VUndefined None);
    GlobalStateChanged ].

End Sample.

(* ===================================================================== *)
(** * send_active.ts: the content script that reports an active page *)
(* ===================================================================== *)

Module SendActive.
Import Js Storage ReplaceDate.

(** The [active] message. *)
Record ActivationMessage : Type := mkActivation {
  am_fakeDate : string;
  am_tickStartTimestamp : option string;
  am_isClockStopped : bool;
}.

(** What one run of [initializeAndSendActive] ends with. *)
Inductive Outcome : Type :=
| SentActive (m : ActivationMessage)
| RetryScheduled
| NothingSent.

(** The reply to the [getGlobalState] message as the content script
    receives it: the state the worker reads, or a rejected promise when
    the worker cannot be reached. *)
Definition getGlobalStateReply (connected : bool) (a : LocalArea)
  : completion (option GlobalState) :=
  if connected then Normal (Some (currentState a))
  else Throw "Could not establish connection. Receiving end does not exist.".

(** Copies an enabled global state into the session storage and reports
    whether it did; anything that throws ends in [false]. *)
Definition checkAndApplyGlobalState (response : completion (option GlobalState))
  (ss : SessionStorage) : bool * SessionStorage :=
  match response with
  | Normal (Some r) =>
      if isGlobalEnabled r && truthy (fakeDate r) then
        match
          Worker.andThen
            (setItem ss FAKE_DATE_STORAGE_KEY (default "" (fakeDate r)))
            (fun ss1 =>
               if truthy (tickStartTimestamp r)
               then setItem ss1 TICK_START_STORAGE_KEY
                      (default "" (tickStartTimestamp r))
               else removeItem ss1 TICK_START_STORAGE_KEY)
        with
        | Normal ss' => (true, ss')
        | Throw _ => (false, ss)
        end
      else (false, ss)
  | _ => (false, ss)
  end.

Definition initializeAndSendActive (response : completion (option GlobalState))
  (ss : SessionStorage) : Outcome * SessionStorage :=
  let '(globalStateApplied, ss') := checkAndApplyGlobalState response ss in
  match getItem ss' FAKE_DATE_STORAGE_KEY with
  | Throw _ => (NothingSent, ss')
  | Normal fakeDate =>
      if truthy fakeDate then
        match getItem ss' TICK_START_STORAGE_KEY with
        | Throw _ => (NothingSent, ss')
        | Normal tickStartTimestamp =>
            (SentActive
               (mkActivation (default "" fakeDate) tickStartTimestamp
                  (negb (truthy tickStartTimestamp))),
             ss')
        end
      else if globalStateApplied then (RetryScheduled, ss')
      else (NothingSent, ss')
  end.

End SendActive.

(* ===================================================================== *)
(** * scripts/debug.ts: console helpers *)
(* ===================================================================== *)

Module Debug.
Import Js Storage.
Local Open Scope async_scope.

(** Repairs a clock flag that disagrees with the anchor; returns the state
    it ends with, or the error message. *)
Definition fixClockState (now : Z) : async (GlobalState + string) :=
  try_catch
    (globalState <- getGlobalState ;;
     if isGlobalEnabled globalState && truthy (fakeDate globalState) then
       await (if negb (isClockStopped globalState)
                 && negb (truthy (tickStartTimestamp globalState))
              then updateGlobalClockState now false (Some (Some (pretty now)))
              else if isClockStopped globalState
                      && truthy (tickStartTimestamp globalState)
              then updateGlobalClockState now true (Some None)
              else ret tt) ;;
       fixedState <- getGlobalState ;;
       ret (inl fixedState)
     else ret (inl globalState))
    (fun error => ret (inr error)).

End Debug.

(* ===================================================================== *)
(** * The popup's view of the global state *)
(* ===================================================================== *)

(** [formatLocalTime] of util/common.ts, which renders a Date in local
    time. *)
Class PopupHost : Type := {
  formatLocalTime : Js.Date -> string;
}.

Module PopupState.
Import Js Storage.
Local Open Scope async_scope.

Record FakeTimeState : Type := mkFakeTimeState {
  isEnabled : bool;
  shownDate : option string;
  shownClockStopped : bool;
}.

Section View.
Context `{PageHost} `{PopupHost}.

Definition getGlobalFakeTimeState (now : Z) : async FakeTimeState :=
  globalState <- getGlobalState ;;
  if negb (isGlobalEnabled globalState) || negb (truthy (fakeDate globalState))
  then ret (mkFakeTimeState false None true)
  else
    let stored := default "" (fakeDate globalState) in
    let currentFakeDate :=
      if negb (isClockStopped globalState)
         && truthy (tickStartTimestamp globalState)
      then
        let fakeDate := newDate_number (Date_parse stored) in
        let tickStartTimestamp :=
          parseInt (default "" (tickStartTimestamp globalState)) in
        let elapsed := sub (Num now) tickStartTimestamp in
        let fakeDateNow := newDate_number (add (getTime fakeDate) elapsed) in
        formatLocalTime fakeDateNow
      else stored in
    ret (mkFakeTimeState true (Some currentFakeDate)
           (isClockStopped globalState)).

End View.

End PopupState.

(* ===================================================================== *)
(** * api_bridge.ts: the read request *)
(* ===================================================================== *)

Module ApiBridgeRead.
Import Js Storage.
Local Open Scope async_scope.

Record StateResponse : Type := mkStateResponse {
  sr_success : bool;
  sr_error : option string;
  sr_globalState : option GlobalState;
}.

(** [chrome.runtime.sendMessage({ msg: 'getGlobalState' })] *)
Definition sendGetGlobalState (connected : bool) : async GlobalState :=
  if connected then Worker.onMessage_getGlobalState
  else throw "Could not establish connection. Receiving end does not exist.".

Definition handleGetGlobalState (connected : bool) : async StateResponse :=
  try_catch
    (response <- sendGetGlobalState connected ;;
     ret (mkStateResponse true None (Some response)))
    (fun error => ret (mkStateResponse false (Some error) None)).

End ApiBridgeRead.

(* ===================================================================== *)
(** * simple/script.js: the stand-alone page *)
(* ===================================================================== *)

Module SimpleApp.
Import Js.

(** The fields of the [TimeTravel] object that carry the fake time. *)
Record TimeTravel : Type := mkTimeTravel {
  fakeDate : option Date;
  tickStartTimestamp : option number;
  isClockStopped : bool;
  isEnabled : bool;
}.

(** Truthiness of a [number | null] operand: zero and NaN are falsy. *)
Definition truthyNumber (n : option number) : bool :=
  match n with
  | Some (Num z) => negb (z =? 0)
  | _ => false
  end.

(** [injectFakeDate]: whether [window.Date] gets replaced at load time. *)
Definition injectFakeDate (this : TimeTravel) : ReplaceDate.Binding :=
  if negb (isEnabled this) || negb (bool_decide (is_Some (fakeDate this)))
  then ReplaceDate.Original
  else ReplaceDate.Fake.

(** [getFakeDate] names the global [Date], so what it does depends on what
    [window.Date] is bound to.  The replacement installed by
    [injectFakeDate] answers [new Date()] with
    [new originalDate(self.getFakeDate())] and [Date.now()] with
    [self.getFakeDate().getTime()]: both call back into [getFakeDate].
    [depth] is the room left on the call stack; [None] is the RangeError
    of an exhausted stack. *)
Fixpoint getFakeDate (depth : nat) (binding : ReplaceDate.Binding)
  (this : TimeTravel) (now : Z) : option Date :=
  let reenter :=
    match depth with
    | O => None
    | S depth' => getFakeDate depth' binding this now
    end in
  if negb (isEnabled this) || negb (bool_decide (is_Some (fakeDate this)))
  then
    (* return new Date() *)
    match binding with
    | ReplaceDate.Original => Some (newDate_now now)
    | ReplaceDate.Fake => reenter
    end
  else
    let d := default (mkDate NaN) (fakeDate this) in
    if isClockStopped this then Some d
    else if truthyNumber (tickStartTimestamp this) then
      (* Date.now() *)
      let dateNow :=
        match binding with
        | ReplaceDate.Original => Some (Num now)
        | ReplaceDate.Fake => getTime <$> reenter
        end in
      match dateNow with
      | Some n =>
          let elapsed := sub n (default NaN (tickStartTimestamp this)) in
          Some (newDate_number (add (getTime d) elapsed))
      | None => None
      end
    else Some d.

(** The assignments of the event handlers.  [dateNow] is what the
    handler's [Date.now()] call returned. *)
Definition resetToRealTime (this : TimeTravel) : TimeTravel :=
  mkTimeTravel None None false false.

Definition onStopClockChange (stopClock : bool) (dateNow : number)
  (this : TimeTravel) : TimeTravel :=
  mkTimeTravel (fakeDate this)
    (if stopClock then None else Some dateNow)
    stopClock (isEnabled this).

(** [parsedDate] is what [parseDate] made of the input field. *)
Definition applyFakeDate (parsedDate : option Date) (dateNow : number)
  (this : TimeTravel) : TimeTravel :=
  match parsedDate with
  | None => this
  | Some d =>
      mkTimeTravel (Some d)
        (if negb (isClockStopped this) then Some dateNow
         else tickStartTimestamp this)
        (isClockStopped this) true
  end.

Definition onEnableChange (enabled : bool) (parsedDate : option Date)
  (this : TimeTravel) : TimeTravel :=
  if negb enabled then resetToRealTime this
  else
    match parsedDate with
    | Some d =>
        mkTimeTravel (Some d) (tickStartTimestamp this)
          (isClockStopped this) true
    | None => this
    end.

End SimpleApp.

(* ===================================================================== *)
(** * time-travel-api.js: the client library of external pages *)
(* ===================================================================== *)

Module ApiClient.
Import Js.

(** How the promise of a request was settled. *)
Inductive Settlement : Type :=
| Resolved
| Rejected (reason : string).

Record TimeTravelAPI : Type := mkClient {
  requestId : nat;
  (** keys of the [pendingRequests] map *)
  pendingRequests : gset string;
  (** requests whose response handler is registered on the window *)
  listeners : gset string;
  (** every [resolve] and [reject] call made so far, latest first *)
  settled : list (string * Settlement);
}.

(** A freshly constructed client, before it sends anything. *)
Definition newClient : TimeTravelAPI := mkClient 0 ∅ ∅ [].

Definition requestIdOf (now : Z) (counter : nat) : string :=
  "req_" ++ pretty now ++ "_" ++ pretty counter.

(** [`req_${Date.now()}_${++this.requestId}`] *)
Definition generateRequestId (now : Z) (this : TimeTravelAPI)
  : string * TimeTravelAPI :=
  let counter := S (requestId this) in
  (requestIdOf now counter,
   mkClient counter (pendingRequests this) (listeners this) (settled this)).

(** [sendMessage] up to the point where the promise is pending: the
    handler is registered, the request recorded and posted. *)
Definition sendMessage (now : Z) (this : TimeTravelAPI)
  : string * TimeTravelAPI :=
  let '(id, this1) := generateRequestId now this in
  (id,
   mkClient (requestId this1) ({[id]} ∪ pendingRequests this1)
     ({[id]} ∪ listeners this1) (settled this1)).

(** The data of a window message, as far as the handlers look at it. *)
Record WindowMessage : Type := mkWindowMessage {
  m_type : string;
  m_requestId : option string;
  m_success : bool;
  m_error : option string;
}.

(** The response handler of request [id], run on one message event. *)
Definition responseHandler (id : string) (data : option WindowMessage)
  (this : TimeTravelAPI) : TimeTravelAPI :=
  match data with
  | Some m =>
      if String.eqb (m_type m) "TIME_TRAVEL_RESPONSE"
         && bool_decide (m_requestId m = Some id)
      then
        mkClient (requestId this) (pendingRequests this ∖ {[id]})
          (listeners this ∖ {[id]})
          ((id, if m_success m then Resolved
                else Rejected (if truthy (m_error m)
                               then default "" (m_error m)
                               else "Unknown error"))
           :: settled this)
      else this
  | None => this
  end.

(** A message event reaches every handler registered at that moment. *)
Definition onMessage (data : option WindowMessage) (this : TimeTravelAPI)
  : TimeTravelAPI :=
  foldl (fun c id => responseHandler id data c) this (elements (listeners this)).

(** The timer of request [id] fires. *)
Definition onTimeout (id : string) (this : TimeTravelAPI) : TimeTravelAPI :=
  if bool_decide (id ∈ pendingRequests this) then
    mkClient (requestId this) (pendingRequests this ∖ {[id]})
      (listeners this ∖ {[id]})
      ((id, Rejected "Request timeout - extension may not be available")
       :: settled this)
  else this.

Inductive Event : Type :=
| Send (now : Z)
| Message (data : option WindowMessage)
| Timeout (id : string).

Definition step (this : TimeTravelAPI) (e : Event) : TimeTravelAPI :=
  match e with
  | Send now => (sendMessage now this).2
  | Message data => onMessage data this
  | Timeout id => onTimeout id this
  end.

Definition run (this : TimeTravelAPI) (events : list Event) : TimeTravelAPI :=
  foldl step this events.

End ApiClient.

(* ===================================================================== *)
(** * A host whose formatter treats null as the genuine one does *)
(* ===================================================================== *)

Module EpochHost.
Import Js.

(** The genuine formatter converts its argument to a number before it
    formats it, and [null] converts to 0, the epoch. *)
Definition render (v : value) : string :=
  match v with
  | VNull => pretty 0
  | _ => Sample.render v
  end.

(** [Sample.host] with that formatter. *)
Definition host : PageHost :=
  {| Date_parse := Date_parse (PageHost := Sample.host);
     Date_fromFields := Date_fromFields (PageHost := Sample.host);
     Date_toString := Date_toString (PageHost := Sample.host);
     Formatter := unit;
     Parts := list string;
     Intl_DateTimeFormat := fun _ _ => tt;
     Intl_format := fun _ v => render v;
     Intl_formatToParts := fun _ v => [render v];
     Intl_formatRange := fun _ a b => render a ++ "-" ++ render b;
     Intl_formatRangeToParts := fun _ a b => [render a; render b] |}.

End EpochHost.

(* ===================================================================== *)
(** * Properties of the host fragment *)
(* ===================================================================== *)

Module JsFacts.
Import Js.


Lemma TimeClip_valid (z : Z) : valid_time z -> TimeClip (Num z) = Num z.
Proof.
  unfold valid_time. intros Hz. simpl.
  destruct (Z.leb_spec (Z.abs z) MAX_TIME); [reflexivity | lia].
Qed.

Lemma TimeClip_out_of_range (z : Z) : ~ valid_time z -> TimeClip (Num z) = NaN.
Proof.
  unfold valid_time. intros Hz. simpl.
  destruct (Z.leb_spec (Z.abs z) MAX_TIME); [contradiction | reflexivity].
Qed.

Lemma sub_NaN_r (a : number) : sub a NaN = NaN.
Proof. destruct a; reflexivity. Qed.

Lemma add_NaN_r (a : number) : add a NaN = NaN.
Proof. destruct a; reflexivity. Qed.

(** [Number.parseInt] completes normally on every string. *)
Lemma Number_parseInt_never_throws (s : string) :
  exists n, Number_parseInt s = Normal n.
Proof. exists (parseInt s). reflexivity. Qed.

Example parseInt_timestamp : parseInt "1700000000000" = Num 1700000000000.
Proof. reflexivity. Qed.

Example parseInt_padded_signed : parseInt "  -42px" = Num (-42).
Proof. reflexivity. Qed.

Example parseInt_hex : parseInt "0x1F" = Num 31.
Proof. reflexivity. Qed.

Example parseInt_empty : parseInt "" = NaN.
Proof. reflexivity. Qed.

Example parseInt_letters : parseInt "abc" = NaN.
Proof. reflexivity. Qed.

Example parseInt_bare_prefix : parseInt "0x" = NaN.
Proof. reflexivity. Qed.

(** A string whose first code unit is neither white space, a sign nor a
    decimal digit is not a number for [parseInt]. *)
Lemma parseInt_first_char (c : ascii) (r : string) :
  isWhiteSpace c = false ->
  c <> "-"%char -> c <> "+"%char ->
  digitValue 10 c = None ->
  parseInt (String c r) = NaN.
Proof.
  intros Hw Hm Hp Hd. unfold parseInt. simpl trimStart. rewrite Hw.
  assert (Hs : stripSign (String c r) = (1, String c r)).
  { unfold stripSign.
    destruct c as [[] [] [] [] [] [] [] []]; try reflexivity; congruence. }
  rewrite Hs.
  assert (Hx : stripHexPrefix (String c r) = (10, String c r)).
  { unfold stripHexPrefix.
    destruct c as [[] [] [] [] [] [] [] []]; try reflexivity;
      vm_compute in Hd; discriminate. }
  rewrite Hx. simpl. rewrite Hd. reflexivity.
Qed.

End JsFacts.

(* ===================================================================== *)
(** * The clock engine *)
(* ===================================================================== *)

Module ClockEngine.
Import Js ReplaceDate Spec JsFacts.

Section Facts.
Context `{PageHost}.

(** [getFromStorage] absorbs a failing read. *)
Lemma getFromStorage_blocked (ss : SessionStorage) (key e : string) :
  getItem ss key = Throw e -> getFromStorage ss key = None.
Proof. unfold getFromStorage. intros ->. reflexivity. Qed.

(** The [catch] arm of [getTickStartTimestamp] is dead: the result is
    [null] only when the key is absent. *)
Lemma getTickStartTimestamp_eq (ss : SessionStorage) :
  getTickStartTimestamp ss
  = parseInt <$> getFromStorage ss TICK_START_STORAGE_KEY.
Proof.
  unfold getTickStartTimestamp.
  destruct (getFromStorage ss TICK_START_STORAGE_KEY); reflexivity.
Qed.

Lemma getTickStartTimestamp_null (ss : SessionStorage) :
  getTickStartTimestamp ss = None
  <-> getFromStorage ss TICK_START_STORAGE_KEY = None.
Proof.
  rewrite getTickStartTimestamp_eq.
  destruct (getFromStorage ss TICK_START_STORAGE_KEY); simpl; split; congruence.
Qed.

(** The state a session storage stands for satisfies the clock invariant. *)
Lemma contextStateOf_invariant (ss : SessionStorage) :
  contextInvariant (contextStateOf ss).
Proof.
  unfold contextInvariant, contextStateOf. simpl.
  rewrite bool_decide_eq_true.
  destruct (storedEntry ss seededAnchorKey); simpl; split; congruence.
Qed.


(** The three cases of [fakeNowDate], read off the storage. *)
Lemma fakeNowDate_unseeded (ss : SessionStorage) (now : Z) :
  getFromStorage ss FAKE_DATE_STORAGE_KEY = None ->
  fakeNowDate ss now = newDate_now now.
Proof. unfold fakeNowDate. intros ->. reflexivity. Qed.

Lemma fakeNowDate_stopped (ss : SessionStorage) (now : Z) (d : string) :
  getFromStorage ss FAKE_DATE_STORAGE_KEY = Some d ->
  getFromStorage ss TICK_START_STORAGE_KEY = None ->
  fakeNowDate ss now = newDate_string d.
Proof.
  unfold fakeNowDate. intros -> Ht.
  rewrite getTickStartTimestamp_eq, Ht. reflexivity.
Qed.

Lemma fakeNowDate_running (ss : SessionStorage) (now : Z) (d a : string) :
  getFromStorage ss FAKE_DATE_STORAGE_KEY = Some d ->
  getFromStorage ss TICK_START_STORAGE_KEY = Some a ->
  fakeNowDate ss now
  = newDate_number
      (add (getTime (newDate_string d)) (sub (Num now) (parseInt a))).
Proof.
  unfold fakeNowDate. intros -> Ht.
  rewrite getTickStartTimestamp_eq, Ht. reflexivity.
Qed.


(** The time value is the formula itself whenever the formula yields an
    instant a Date can hold. *)
Lemma fakeNowDate_running_time (ss : SessionStorage) (now f t : Z) (d a : string) :
  getFromStorage ss FAKE_DATE_STORAGE_KEY = Some d ->
  getFromStorage ss TICK_START_STORAGE_KEY = Some a ->
  getTime (newDate_string d) = Num f ->
  parseInt a = Num t ->
  valid_time (f + (now - t)) ->
  getTime (fakeNowDate ss now) = Num (f + (now - t)).
Proof.
  intros Hd Ha Hf Ht Hv.
  rewrite (fakeNowDate_running ss now d a Hd Ha), Hf, Ht. simpl add.
  unfold newDate_number. simpl getTime. apply TimeClip_valid, Hv.
Qed.

(** Beyond the range of Date the constructor yields an Invalid Date. *)
Lemma fakeNowDate_running_out_of_range (ss : SessionStorage) (now f t : Z)
  (d a : string) :
  getFromStorage ss FAKE_DATE_STORAGE_KEY = Some d ->
  getFromStorage ss TICK_START_STORAGE_KEY = Some a ->
  getTime (newDate_string d) = Num f ->
  parseInt a = Num t ->
  ~ valid_time (f + (now - t)) ->
  getTime (fakeNowDate ss now) = NaN.
Proof.
  intros Hd Ha Hf Ht Hv.
  rewrite (fakeNowDate_running ss now d a Hd Ha), Hf, Ht. simpl add.
  unfold newDate_number. simpl getTime. apply TimeClip_out_of_range, Hv.
Qed.

(** Once the toggle has run, [new Date()] and [Date.now()] in the page
    resolve through [fakeNowDate], whichever way the toggle went. *)
Lemma reads_resolve_through_fakeNowDate (p : Page) (now : Z) :
  global_new_Date (timeTravelCheckToggle p) now
  = fakeNowDate (sessionStorage p) now
  /\ FakeDate_now (timeTravelCheckToggle p) now
     = getTime (fakeNowDate (sessionStorage p) now).
Proof.
  unfold FakeDate_now, global_new_Date, timeTravelCheckToggle.
  destruct (getFromStorage (sessionStorage p) FAKE_DATE_STORAGE_KEY)
    as [d|] eqn:Hd; simpl.
  - split; reflexivity.
  - rewrite (fakeNowDate_unseeded _ now Hd). split; reflexivity.
Qed.

(** A running clock never goes backwards as real time advances. *)
Lemma fakeNowDate_running_monotone (ss : SessionStorage) (now1 now2 v1 v2 : Z)
  (d a : string) :
  getFromStorage ss FAKE_DATE_STORAGE_KEY = Some d ->
  getFromStorage ss TICK_START_STORAGE_KEY = Some a ->
  getTime (fakeNowDate ss now1) = Num v1 ->
  getTime (fakeNowDate ss now2) = Num v2 ->
  now1 <= now2 -> v1 <= v2.
Proof.
  intros Hd Ha H1 H2 Hle.
  rewrite (fakeNowDate_running ss now1 d a Hd Ha) in H1.
  rewrite (fakeNowDate_running ss now2 d a Hd Ha) in H2.
  unfold newDate_number, newDate_string in H1, H2. simpl getTime in H1, H2.
  destruct (TimeClip (Date_parse d)) as [|f]; [discriminate|].
  destruct (parseInt a) as [|t]; [discriminate|].
  simpl in H1, H2.
  destruct (Z.abs (f + (now1 - t)) <=? MAX_TIME); [|discriminate].
  destruct (Z.abs (f + (now2 - t)) <=? MAX_TIME); [|discriminate].
  injection H1 as <-. injection H2 as <-. lia.
Qed.

(** A stopped clock is frozen: the result does not depend on [now]. *)
Lemma fakeNowDate_stopped_frozen (ss : SessionStorage) (now1 now2 : Z) (d : string) :
  getFromStorage ss FAKE_DATE_STORAGE_KEY = Some d ->
  getFromStorage ss TICK_START_STORAGE_KEY = None ->
  fakeNowDate ss now1 = fakeNowDate ss now2.
Proof.
  intros Hd Ha. rewrite !(fakeNowDate_stopped ss _ d Hd Ha). reflexivity.
Qed.

(** C9.  When the session-storage read of the fake-date key raises,
    [fakeNowDate] returns the genuine current instant: the failure is
    absorbed by [getFromStorage] and nothing is thrown. *)
Theorem fakeNowDate_falls_back_when_blocked (ss : SessionStorage) (now : Z)
  (e : string) :
  getItem ss FAKE_DATE_STORAGE_KEY = Throw e ->
  getFromStorage ss FAKE_DATE_STORAGE_KEY = None
  /\ fakeNowDate ss now = newDate_now now
  /\ getTime (fakeNowDate ss now) = Num now.
Proof.
  intros Hthrow.
  pose proof (getFromStorage_blocked _ _ _ Hthrow) as Hnone.
  rewrite (fakeNowDate_unseeded ss now Hnone). auto.
Qed.

(** C10.  With a fake date seeded and a stored tick anchor that
    [parseInt] cannot read, [getTickStartTimestamp] returns NaN, not
    null, and [fakeNowDate] returns an Invalid Date: neither the real
    instant nor, when the seeded date is valid, the frozen fake instant. *)
Theorem fakeNowDate_invalid_on_nonnumeric_anchor (ss : SessionStorage)
  (now : Z) (d a : string) :
  getFromStorage ss FAKE_DATE_STORAGE_KEY = Some d ->
  getFromStorage ss TICK_START_STORAGE_KEY = Some a ->
  parseInt a = NaN ->
  getTickStartTimestamp ss = Some NaN
  /\ getTime (fakeNowDate ss now) = NaN
  /\ fakeNowDate ss now <> newDate_now now
  /\ (getTime (newDate_string d) <> NaN -> fakeNowDate ss now <> newDate_string d).
Proof.
  intros Hd Ha Hnan.
  assert (Ht : getTime (fakeNowDate ss now) = NaN).
  { rewrite (fakeNowDate_running ss now d a Hd Ha), Hnan.
    simpl sub. rewrite add_NaN_r. reflexivity. }
  split; [rewrite getTickStartTimestamp_eq, Ha; simpl; congruence|].
  split; [exact Ht|]. split.
  - intros Heq. rewrite Heq in Ht. discriminate.
  - intros Hvalid Heq. rewrite Heq in Ht. contradiction.
Qed.

(** C8, as the code has it.  Constructing through [FakeDate] with at least
    one argument, whatever the arguments, gives what the genuine
    constructor gives for them.  [format] and [formatToParts] format the
    argument they are given whenever it is neither undefined nor null, be
    it a Date, a number or any other value; given undefined or null they
    format the virtual instant, so an explicitly passed null is faked as
    well.  The range methods always pass both arguments on. *)
Theorem explicit_arguments_are_not_faked (ss : SessionStorage) (now : Z) :
  (forall (a : value) (args : list value),
     FakeDate_new ss now (a :: args) = OriginalDate_new now (a :: args))
  /\ (forall (this : FakeIntlDateTimeFormat) (date : value),
        isNullish date = false ->
        format this ss now date = Intl_format (_originalObject this) date
        /\ formatToParts this ss now date
           = Intl_formatToParts (_originalObject this) date)
  /\ (forall (this : FakeIntlDateTimeFormat) (date : value),
        isNullish date = true ->
        format this ss now date
        = Intl_format (_originalObject this) (VDate (fakeNowDate ss now))
        /\ formatToParts this ss now date
           = Intl_formatToParts (_originalObject this)
               (VDate (fakeNowDate ss now)))
  /\ (forall (this : FakeIntlDateTimeFormat) (startDate endDate : value),
        formatRange this startDate endDate
        = Intl_formatRange (_originalObject this) startDate endDate
        /\ formatRangeToParts this startDate endDate
           = Intl_formatRangeToParts (_originalObject this) startDate endDate).
Proof.
  split; [reflexivity|]. split; [|split].
  - intros this date Hgiven. unfold format, formatToParts, orFakeNow.
    rewrite Hgiven. split; reflexivity.
  - intros this date Hmissing. unfold format, formatToParts, orFakeNow.
    rewrite Hmissing. split; reflexivity.
  - intros this startDate endDate. split; reflexivity.
Qed.

(** The implicit path is the faked one: no arguments, or no date. *)
Lemma implicit_now_is_faked (ss : SessionStorage) (now : Z)
  (this : FakeIntlDateTimeFormat) :
  FakeDate_new ss now [] = fakeNowDate ss now
  /\ format this ss now VUndefined
     = Intl_format (_originalObject this) (VDate (fakeNowDate ss now)).
Proof. split; reflexivity. Qed.

End Facts.

(** Concrete runs on the sample host. *)
Example fakeNowDate_sample_unseeded :
  fakeNowDate (H := Sample.host) Sample.unseeded 1700000002000
  = mkDate (Num 1700000002000).
Proof. vm_compute. reflexivity. Qed.

Example fakeNowDate_sample_stopped :
  fakeNowDate (H := Sample.host) Sample.stopped 1700000002000
  = mkDate (Num 1703500200000).
Proof. vm_compute. reflexivity. Qed.

Example fakeNowDate_sample_running :
  fakeNowDate (H := Sample.host) Sample.running 1700000002000
  = mkDate (Num 1703500202000).
Proof. vm_compute. reflexivity. Qed.

Example fakeNowDate_sample_brokenAnchor :
  fakeNowDate (H := Sample.host) Sample.brokenAnchor 1700000002000
  = mkDate NaN.
Proof. vm_compute. reflexivity. Qed.


Lemma explicit_arguments_are_not_faked_witness :
  let this := FakeIntlDateTimeFormat_new (H := EpochHost.host) VUndefined VUndefined in
  isNullish (VNumber (Num 86400000)) = false
  /\ format (H := EpochHost.host) this Sample.stopped 1700000002000
       (VNumber (Num 86400000))
     = "86400000"
  /\ isNullish VUndefined = true
  /\ format (H := EpochHost.host) this Sample.stopped 1700000002000 VUndefined
     = "1703500200000".
Proof.
  intros this.
  destruct (explicit_arguments_are_not_faked (H := EpochHost.host)
              Sample.stopped 1700000002000) as (_ & Hgiven & Hmissing & _).
  split; [reflexivity|].
  split; [rewrite (proj1 (Hgiven this (VNumber (Num 86400000)) eq_refl));
          vm_compute; reflexivity|].
  split; [reflexivity|].
  rewrite (proj1 (Hmissing this VUndefined eq_refl)). vm_compute. reflexivity.
Defined.

(** C8, as the claim states it, fails.  With a stopped fake date seeded, a
    [format] call that passes null explicitly yields the fake instant,
    where the genuine formatter formats null as the epoch. *)
Lemma format_of_explicit_null_is_faked :
  let this := FakeIntlDateTimeFormat_new (H := EpochHost.host) VUndefined VUndefined in
  Intl_format (PageHost := EpochHost.host) (_originalObject this) VNull = "0"
  /\ format (H := EpochHost.host) this Sample.stopped 1700000002000 VNull
     = "1703500200000"
  /\ format (H := EpochHost.host) this Sample.stopped 1700000002000 VNull
     <> Intl_format (PageHost := EpochHost.host) (_originalObject this) VNull.
Proof. vm_compute. repeat split. discriminate. Qed.

Lemma fakeNowDate_falls_back_when_blocked_witness :
  getItem Blocked FAKE_DATE_STORAGE_KEY = Throw "SecurityError"
  /\ fakeNowDate (H := Sample.host) Blocked 1700000002000
     = newDate_now 1700000002000.
Proof.
  split; [reflexivity|].
  apply (fakeNowDate_falls_back_when_blocked (H := Sample.host)
           Blocked 1700000002000 "SecurityError"). reflexivity.
Defined.

Lemma fakeNowDate_invalid_on_nonnumeric_anchor_witness :
  getFromStorage Sample.brokenAnchor FAKE_DATE_STORAGE_KEY = Some Sample.christmas
  /\ getFromStorage Sample.brokenAnchor TICK_START_STORAGE_KEY = Some "abc"
  /\ parseInt "abc" = NaN
  /\ getTickStartTimestamp Sample.brokenAnchor = Some NaN
  /\ getTime (fakeNowDate (H := Sample.host) Sample.brokenAnchor 1700000002000)
     = NaN.
Proof.
  assert (Hd : getFromStorage Sample.brokenAnchor FAKE_DATE_STORAGE_KEY
               = Some Sample.christmas) by (vm_compute; reflexivity).
  assert (Ha : getFromStorage Sample.brokenAnchor TICK_START_STORAGE_KEY
               = Some "abc") by (vm_compute; reflexivity).
  assert (Hn : parseInt "abc" = NaN) by reflexivity.
  destruct (fakeNowDate_invalid_on_nonnumeric_anchor (H := Sample.host)
              Sample.brokenAnchor 1700000002000 Sample.christmas "abc" Hd Ha Hn)
    as (Ht & Hv & _).
  repeat split; assumption.
Defined.

End ClockEngine.

(* ===================================================================== *)
(** * The state store *)
(* ===================================================================== *)

Module StateStore.
Import Js Storage Spec.
Local Open Scope async_scope.

Lemma getGlobalState_returns (a : LocalArea) :
  getGlobalState a = (Normal (currentState a), a).
Proof.
  unfold currentState, getGlobalState, try_catch, bind, local_get, ret.
  destruct (readable a); reflexivity.
Qed.

Lemma currentState_readable (a : LocalArea) :
  readable a = true ->
  currentState a = spread DEFAULT_STATE (default noProperties (stored a)).
Proof.
  unfold currentState, getGlobalState, try_catch, bind, local_get, ret.
  intros ->. reflexivity.
Qed.

Lemma currentState_unreadable (a : LocalArea) :
  readable a = false -> currentState a = DEFAULT_STATE.
Proof.
  unfold currentState, getGlobalState, try_catch, bind, local_get, ret.
  intros ->. reflexivity.
Qed.

Lemma spread_allProperties (base g : GlobalState) :
  spread base (allProperties g) = g.
Proof. destruct g; reflexivity. Qed.

(** What a reader sees after a full state has been persisted. *)
Lemma currentState_persisted (r w : bool) (g : GlobalState) :
  currentState (mkLocalArea r w (Some (allProperties g)))
  = if r then g else DEFAULT_STATE.
Proof.
  destruct r.
  - rewrite currentState_readable by reflexivity. apply spread_allProperties.
  - apply currentState_unreadable. reflexivity.
Qed.

(** [setGlobalState] is a plain read-merge-write. *)
Lemma setGlobalState_writable (p : PartialGlobalState) (a : LocalArea) :
  writable a = true ->
  setGlobalState p a
  = (Normal tt,
     mkLocalArea (readable a) true
       (Some (allProperties (spread (currentState a) p)))).
Proof.
  intros Hw. unfold setGlobalState, try_catch, bind.
  rewrite getGlobalState_returns. unfold local_set. rewrite Hw. reflexivity.
Qed.

Lemma setGlobalState_unwritable (p : PartialGlobalState) (a : LocalArea) :
  writable a = false ->
  setGlobalState p a = (Throw "storage.local.set failed", a).
Proof.
  intros Hw. unfold setGlobalState, try_catch, bind.
  rewrite getGlobalState_returns. unfold local_set, throw. rewrite Hw.
  reflexivity.
Qed.

(** C7.  [getGlobalState] returns the documented default (disabled, no
    fake date, no tick anchor, clock stopped) when no record is persisted,
    and returns that same default, without raising, when the read of the
    durable storage raises. *)
Theorem getGlobalState_default (w : bool) (r : option PartialGlobalState) :
  getGlobalState (mkLocalArea true w None)
  = (Normal (mkGlobalState false None None true), mkLocalArea true w None)
  /\ local_get (mkLocalArea false w r)
     = (Throw "storage.local.get failed", mkLocalArea false w r)
  /\ getGlobalState (mkLocalArea false w r)
     = (Normal (mkGlobalState false None None true), mkLocalArea false w r).
Proof. repeat split. Qed.

Lemma DEFAULT_STATE_documented : DEFAULT_STATE = documentedDefault.
Proof. reflexivity. Qed.

(** The final anchor [updateGlobalClockState] hands to the store. *)
Lemma updateGlobalClockState_writable (now : Z) (isStopped : bool)
  (tick : option (option string)) (a : LocalArea) :
  writable a = true ->
  updateGlobalClockState now isStopped tick a
  = (Normal tt,
     mkLocalArea (readable a) true
       (Some (allProperties
          {| isGlobalEnabled := isGlobalEnabled (currentState a);
             fakeDate := fakeDate (currentState a);
             tickStartTimestamp :=
               if isStopped then None
               else if truthy (mjoin tick) then mjoin tick
               else Some (pretty now);
             isClockStopped := isStopped |}))).
Proof.
  intros Hw. unfold updateGlobalClockState.
  rewrite setGlobalState_writable by exact Hw.
  destruct isStopped; simpl; [reflexivity|].
  destruct tick as [[[|c s]|]|]; reflexivity.
Qed.

(** C3, as the code has it.  Whenever the storage accepts the write,
    [updateGlobalClockState] completes and the state it persists satisfies
    isClockStopped = true <-> tickStartTimestamp = null, for every prior
    state and every argument: stopping clears the anchor whatever was
    passed; starting without an anchor (undefined, null or the empty
    string) stores the current instant; starting with an anchor stores
    that anchor. *)
Theorem updateGlobalClockState_keeps_clock_invariant (now : Z)
  (isStopped : bool) (tick : option (option string)) (a : LocalArea) :
  writable a = true ->
  exists g : GlobalState,
    updateGlobalClockState now isStopped tick a
    = (Normal tt, mkLocalArea (readable a) true (Some (allProperties g)))
    /\ clockInvariant g
    /\ isClockStopped g = isStopped
    /\ (isStopped = true -> tickStartTimestamp g = None)
    /\ (isStopped = false -> truthy (mjoin tick) = false ->
        tickStartTimestamp g = Some (pretty now))
    /\ (isStopped = false -> truthy (mjoin tick) = true ->
        tickStartTimestamp g = mjoin tick)
    /\ isGlobalEnabled g = isGlobalEnabled (currentState a)
    /\ fakeDate g = fakeDate (currentState a).
Proof.
  intros Hw. eexists. split.
  { apply updateGlobalClockState_writable, Hw. }
  unfold clockInvariant. simpl.
  destruct isStopped; simpl.
  - repeat split; congruence.
  - destruct (truthy (mjoin tick)) eqn:Ht.
    + destruct tick as [[[|c s]|]|]; simpl in *; try discriminate.
      repeat split; congruence.
    + repeat split; congruence.
Qed.

Lemma updateGlobalClockState_keeps_clock_invariant_witness :
  writable Sample.emptyArea = true
  /\ exists g : GlobalState,
       updateGlobalClockState 1700000002000 false None Sample.emptyArea
       = (Normal tt, mkLocalArea true true (Some (allProperties g)))
       /\ clockInvariant g
       /\ tickStartTimestamp g = Some "1700000002000".
Proof.
  split; [reflexivity|].
  destruct (updateGlobalClockState_keeps_clock_invariant 1700000002000 false
              None Sample.emptyArea eq_refl)
    as (g & Hrun & Hinv & _ & _ & Hsynth & _).
  exists g. split; [exact Hrun|]. split; [exact Hinv|].
  rewrite (Hsynth eq_refl eq_refl). vm_compute. reflexivity.
Defined.

(** A write that cannot be stored throws and leaves the area as it was. *)
Lemma updateGlobalClockState_unwritable (now : Z) (isStopped : bool)
  (tick : option (option string)) (a : LocalArea) :
  writable a = false ->
  updateGlobalClockState now isStopped tick a
  = (Throw "storage.local.set failed", a).
Proof. intros Hw. apply setGlobalState_unwritable, Hw. Qed.

(** C3, as the claim states it, fails: [setGlobalState] completes on the
    partial [{ isClockStopped: false }] over an empty store and persists a
    running clock without an anchor. *)
Lemma setGlobalState_breaks_clock_invariant :
  ~ (forall (p : PartialGlobalState) (a a' : LocalArea),
       setGlobalState p a = (Normal tt, a') ->
       clockInvariant (currentState a')).
Proof.
  intros Hall.
  pose (p := mkPartial None None None (Some false)).
  specialize (Hall p Sample.emptyArea _ eq_refl).
  unfold clockInvariant in Hall. vm_compute in Hall.
  destruct Hall as [_ Hback]. specialize (Hback eq_refl). discriminate.
Qed.

(** The writers that leave the clock fields alone keep the invariant. *)
Lemma updateGlobalFakeDate_preserves_clock_invariant (d : option string)
  (a : LocalArea) :
  writable a = true ->
  clockInvariant (currentState a) ->
  exists g : GlobalState,
    updateGlobalFakeDate d a
    = (Normal tt, mkLocalArea (readable a) true (Some (allProperties g)))
    /\ clockInvariant g /\ fakeDate g = d.
Proof.
  intros Hw Hinv. unfold updateGlobalFakeDate.
  rewrite setGlobalState_writable by exact Hw.
  eexists. split; [reflexivity|]. split; [exact Hinv | reflexivity].
Qed.

Lemma setGlobalEnabled_preserves_clock_invariant (enabled : bool)
  (a : LocalArea) :
  writable a = true ->
  clockInvariant (currentState a) ->
  exists g : GlobalState,
    setGlobalEnabled enabled a
    = (Normal tt, mkLocalArea (readable a) true (Some (allProperties g)))
    /\ clockInvariant g /\ isGlobalEnabled g = enabled.
Proof.
  intros Hw Hinv. unfold setGlobalEnabled.
  rewrite setGlobalState_writable by exact Hw.
  eexists. split; [reflexivity|]. split; [exact Hinv | reflexivity].
Qed.

End StateStore.

(* ===================================================================== *)
(** * The write paths: external API and popup *)
(* ===================================================================== *)

Module Writers.
Import Js Storage Spec StateStore.
Local Open Scope async_scope.

(** Chain the writes of a path one [setGlobalState] at a time. *)
Ltac write_step :=
  rewrite ?setGlobalState_writable by reflexivity;
  rewrite ?currentState_persisted; simpl.

(** What the worker persists for an [updateGlobalStateFromAPI] message. *)
Lemma onMessage_updateGlobalStateFromAPI_writable (now : Z)
  (d : option string) (isStopped : option bool) (a : LocalArea) :
  writable a = true ->
  Worker.onMessage_updateGlobalStateFromAPI now d isStopped a
  = (Normal (mkResponse true None (Some "Global state updated successfully")),
     mkLocalArea (readable a) true
       (Some (allProperties
          {| isGlobalEnabled := true;
             fakeDate := d;
             tickStartTimestamp :=
               if default false isStopped then None else Some (pretty now);
             isClockStopped := default true isStopped |}))).
Proof.
  intros Hw. unfold Worker.onMessage_updateGlobalStateFromAPI, try_catch, bind.
  rewrite setGlobalState_writable by exact Hw. reflexivity.
Qed.

Lemma onMessage_updateGlobalStateFromAPI_unwritable (now : Z)
  (d : option string) (isStopped : option bool) (a : LocalArea) :
  writable a = false ->
  Worker.onMessage_updateGlobalStateFromAPI now d isStopped a
  = (Normal (mkResponse false (Some "storage.local.set failed") None), a).
Proof.
  intros Hw. unfold Worker.onMessage_updateGlobalStateFromAPI, try_catch, bind.
  rewrite setGlobalState_unwritable by exact Hw. reflexivity.
Qed.

(** The worker's arm trusts its sender: it stores the date of the message
    as it comes, and a message without [isClockStopped] is stored as a
    stopped clock together with a fresh anchor.  The bridge never sends
    either: it checks the date and always fills in [isClockStopped]. *)
Example onMessage_updateGlobalStateFromAPI_unchecked_date :
  currentState
    (Worker.onMessage_updateGlobalStateFromAPI 1700000002000
       (Some "not-a-date") (Some true) Sample.emptyArea).2
  = mkGlobalState true (Some "not-a-date") None true.
Proof. vm_compute. reflexivity. Qed.

Example onMessage_updateGlobalStateFromAPI_missing_clock_flag :
  currentState
    (Worker.onMessage_updateGlobalStateFromAPI 1700000002000
       (Some Sample.christmas) None Sample.emptyArea).2
  = mkGlobalState true (Some Sample.christmas) (Some "1700000002000") true.
Proof. vm_compute. reflexivity. Qed.

(** The external disable request, in general: the worker is asked to store
    a null date through the update message, which always enables. *)
Lemma handleDisableTimeTravel_writable (now : Z)
  (data : ApiBridge.TimeTravelAPIRequest) (a : LocalArea) :
  writable a = true ->
  ApiBridge.handleDisableTimeTravel true now data a
  = (Normal (mkResponse true None (Some "Global state updated successfully")),
     mkLocalArea (readable a) true
       (Some (allProperties (mkGlobalState true None None true)))).
Proof.
  intros Hw. unfold ApiBridge.handleDisableTimeTravel, ApiBridge.sendMessage,
    try_catch.
  rewrite onMessage_updateGlobalStateFromAPI_writable by exact Hw. reflexivity.
Qed.

(** C4, at the failing input.  A TIME_TRAVEL_DISABLE request handled over
    a working store that holds an enabled state completes with success and
    leaves isGlobalEnabled = true with fakeDate = null: the invariant
    fakeDate = null <-> isGlobalEnabled = false is broken. *)
Theorem api_disable_breaks_enabled_invariant :
  let before := Sample.areaOf (mkGlobalState true (Some Sample.christmas) None true) in
  let request := ApiBridge.mkRequest (Some "req_1") VUndefined None in
  let outcome := ApiBridge.handleDisableTimeTravel true 1700000002000 request before in
  enabledInvariant (currentState before)
  /\ outcome.1
     = Normal (mkResponse true None (Some "Global state updated successfully"))
  /\ currentState outcome.2 = mkGlobalState true None None true
  /\ ~ enabledInvariant (currentState outcome.2).
Proof.
  intros before request outcome. unfold outcome.
  rewrite handleDisableTimeTravel_writable by reflexivity.
  unfold before, Sample.areaOf. simpl fst. simpl snd.
  rewrite !currentState_persisted. unfold enabledInvariant. simpl.
  repeat split; try congruence.
  intros [Hfwd _]. specialize (Hfwd eq_refl). discriminate.
Qed.

Section Paths.
Context `{PageHost} `{Extension}.

(** The external update request keeps both invariants. *)
Lemma handleUpdateGlobalState_accepts (now : Z)
  (data : ApiBridge.TimeTravelAPIRequest) (s : string) (a : LocalArea) :
  writable a = true ->
  ApiBridge.fakeDate data = VString s ->
  s <> "" ->
  isNaN (getTime (newDate_string s)) = false ->
  exists g : GlobalState,
    ApiBridge.handleUpdateGlobalState true now data a
    = (Normal (mkResponse true None (Some "Global state updated successfully")),
       mkLocalArea (readable a) true (Some (allProperties g)))
    /\ isGlobalEnabled g = true
    /\ fakeDate g = Some s
    /\ enabledInvariant g
    /\ clockInvariant g.
Proof.
  intros Hw Hd Hne Hvalid.
  unfold ApiBridge.handleUpdateGlobalState, ApiBridge.sendMessage, try_catch.
  rewrite Hd. destruct s as [|c r]; [congruence|]. rewrite Hvalid.
  rewrite onMessage_updateGlobalStateFromAPI_writable by exact Hw.
  eexists. split; [reflexivity|].
  unfold enabledInvariant, clockInvariant. simpl.
  destruct (default true (ApiBridge.isClockStopped data)); simpl;
    repeat split; congruence.
Qed.

(** The popup's enable path, on a store that can be read and written. *)
Lemma setGlobalFakeTime_enable (now : Z) (s parsed : string)
  (isStopped : option bool) (w : option PartialGlobalState) :
  s <> "" ->
  parseDate s = Some parsed ->
  exists g : GlobalState,
    Popup.setGlobalFakeTime now true (Some s) isStopped (mkLocalArea true true w)
    = (Normal tt, mkLocalArea true true (Some (allProperties g)))
    /\ isGlobalEnabled g = true
    /\ fakeDate g = Some parsed
    /\ enabledInvariant g
    /\ clockInvariant g.
Proof.
  intros Hne Hparse. unfold Popup.setGlobalFakeTime.
  destruct s as [|c r]; [congruence|]. simpl. rewrite Hparse.
  unfold bind, updateGlobalFakeDate, updateGlobalClockState, setGlobalEnabled.
  write_step. write_step. write_step.
  eexists. split; [reflexivity|].
  unfold enabledInvariant, clockInvariant. simpl.
  destruct (default true isStopped); simpl; repeat split; congruence.
Qed.

(** The popup's disable path: taken when [enabled] is false or no date is
    given. *)
Lemma setGlobalFakeTime_disable (now : Z) (enabled : bool)
  (d : option string) (isStopped : option bool) (w : option PartialGlobalState) :
  enabled && truthy d = false ->
  Popup.setGlobalFakeTime now enabled d isStopped (mkLocalArea true true w)
  = (Normal tt,
     mkLocalArea true true (Some (allProperties (mkGlobalState false None None true)))).
Proof.
  intros Hoff. unfold Popup.setGlobalFakeTime. rewrite Hoff.
  unfold bind, updateGlobalFakeDate, updateGlobalClockState, setGlobalEnabled.
  write_step. write_step. write_step. reflexivity.
Qed.

Lemma disabled_state_invariants :
  enabledInvariant (mkGlobalState false None None true)
  /\ clockInvariant (mkGlobalState false None None true).
Proof. unfold enabledInvariant, clockInvariant. simpl. repeat split. Qed.

(** C6, as the code has it.  The checks are those of the two senders.  A
    request whose fake date is not a string the Date constructor can parse
    is answered with an error by the API bridge, and the popup's
    [setGlobalFakeTime] throws on a non-empty date [parseDate] rejects; in
    both cases the storage area, and with it what a later read returns, is
    exactly what it was before the call.  A missing or empty date is not
    checked by the popup: the call counts as a request to disable and
    stores the disabled state.  The worker's message arm checks nothing: it
    stores the date it is handed. *)
Theorem invalid_date_is_rejected_without_mutation :
  (forall (connected : bool) (now : Z) (data : ApiBridge.TimeTravelAPIRequest)
          (a : LocalArea),
     (forall s, ApiBridge.fakeDate data = VString s ->
                isNaN (getTime (newDate_string s)) = true) ->
     exists msg : string,
       ApiBridge.handleUpdateGlobalState connected now data a
       = (Normal (mkResponse false (Some msg) None), a))
  /\ (forall (now : Z) (s : string) (isStopped : option bool) (a : LocalArea),
        s <> "" ->
        parseDate s = None ->
        Popup.setGlobalFakeTime now true (Some s) isStopped a
        = (Throw "Invalid date format!", a))
  /\ (forall (now : Z) (d : option string) (isStopped : option bool)
             (w : option PartialGlobalState),
        truthy d = false ->
        Popup.setGlobalFakeTime now true d isStopped (mkLocalArea true true w)
        = (Normal tt,
           mkLocalArea true true
             (Some (allProperties (mkGlobalState false None None true)))))
  /\ (forall (now : Z) (d : string) (isStopped : option bool) (a : LocalArea),
        writable a = true ->
        exists g : GlobalState,
          Worker.onMessage_updateGlobalStateFromAPI now (Some d) isStopped a
          = (Normal (mkResponse true None
                       (Some "Global state updated successfully")),
             mkLocalArea (readable a) true (Some (allProperties g)))
          /\ isGlobalEnabled g = true
          /\ fakeDate g = Some d).
Proof.
  split; [|split; [|split]].
  - intros connected now data a Hbad.
    unfold ApiBridge.handleUpdateGlobalState, try_catch.
    destruct (ApiBridge.fakeDate data) as [| |b|n|s|d] eqn:Hd;
      try (eexists; reflexivity).
    destruct s as [|c r]; [eexists; reflexivity|].
    rewrite (Hbad _ eq_refl). eexists. reflexivity.
  - intros now s isStopped a Hne Hparse. unfold Popup.setGlobalFakeTime.
    destruct s as [|c r]; [congruence|]. simpl. rewrite Hparse. reflexivity.
  - intros now d isStopped w Hempty.
    apply setGlobalFakeTime_disable. rewrite Hempty. reflexivity.
  - intros now d isStopped a Hw.
    rewrite onMessage_updateGlobalStateFromAPI_writable by exact Hw.
    eexists. split; [reflexivity|]. split; reflexivity.
Qed.

End Paths.

Lemma invalid_date_is_rejected_without_mutation_witness :
  let before := Sample.areaOf (mkGlobalState true (Some Sample.christmas) None true) in
  let request := ApiBridge.mkRequest (Some "req_2") (VString "not-a-date") (Some true) in
  (forall s, VString "not-a-date" = VString s ->
             isNaN (getTime (newDate_string (H := Sample.host) s)) = true)
  /\ (exists msg : string,
        ApiBridge.handleUpdateGlobalState (H := Sample.host) true 1700000002000
          request before
        = (Normal (mkResponse false (Some msg) None), before))
  /\ "not-a-date" <> ""
  /\ parseDate (Extension := Sample.extension) "not-a-date" = None
  /\ Popup.setGlobalFakeTime (H := Sample.extension) 1700000002000 true
       (Some "not-a-date") None before
     = (Throw "Invalid date format!", before).
Proof.
  intros before request.
  destruct (invalid_date_is_rejected_without_mutation
              (H := Sample.host) (H0 := Sample.extension))
    as (Hbridge & Hpopup & _).
  assert (Hbad : forall s, VString "not-a-date" = VString s ->
            isNaN (getTime (newDate_string (H := Sample.host) s)) = true).
  { intros s Hs. injection Hs as <-. vm_compute. reflexivity. }
  assert (Hne : "not-a-date" <> "") by discriminate.
  assert (Hparse : parseDate (Extension := Sample.extension) "not-a-date" = None)
    by (vm_compute; reflexivity).
  split; [exact Hbad|].
  split; [exact (Hbridge true 1700000002000 request before Hbad)|].
  split; [exact Hne|].
  split; [exact Hparse|].
  exact (Hpopup 1700000002000 "not-a-date" None before Hne Hparse).
Defined.

(** C6, as the claim states it, fails.  The empty string is no date for
    the Date constructor nor for [parseDate], yet the popup's
    [setGlobalFakeTime] called with it returns normally and replaces an
    enabled state by the disabled one. *)
Lemma empty_date_disables_instead_of_failing :
  let before := Sample.areaOf Sample.enabledStopped in
  let outcome := Popup.setGlobalFakeTime (H := Sample.extension) 1700000002000
                   true (Some "") None before in
  isNaN (getTime (newDate_string (H := Sample.host) "")) = true
  /\ parseDate (Extension := Sample.extension) "" = None
  /\ outcome.1 = Normal tt
  /\ currentState outcome.2 = mkGlobalState false None None true
  /\ currentState outcome.2 <> currentState before.
Proof. vm_compute. repeat split. discriminate. Qed.

End Writers.

(* ===================================================================== *)
(** * The propagation coordinator *)
(* ===================================================================== *)

Module Coordinator.
Import Js Storage ReplaceDate Worker System Spec StateStore.

Lemma guardKept_refl (t : nat) (w : World) : guardKept t w w.
Proof. unfold guardKept. split; auto. Qed.

Lemma guardKept_same (t : nat) (w w' : World) :
  reloadedTabs w' = reloadedTabs w ->
  reloads w' = reloads w ->
  guardKept t w w'.
Proof.
  intros Hset Hlog. unfold guardKept, reloadCount. rewrite Hset, Hlog.
  split; auto.
Qed.

Lemma guardKept_trans (t : nat) (w1 w2 w3 : World) :
  guardKept t w1 w2 -> guardKept t w2 w3 -> guardKept t w1 w3.
Proof.
  intros [Hin12 Hout12] [Hin23 Hout23]. split.
  - intros H1. destruct (Hin12 H1) as [H2 Hc12].
    destruct (Hin23 H2) as [H3 Hc23]. split; [exact H3 | congruence].
  - intros H1. destruct (Hout12 H1) as [Hc12 | [Hc12 H2]].
    + destruct (decide (t ∈ reloadedTabs w2)) as [H2 | H2].
      * destruct (Hin23 H2) as [_ Hc23]. left. congruence.
      * destruct (Hout23 H2) as [Hc23 | [Hc23 H3]].
        -- left. congruence.
        -- right. split; [congruence | exact H3].
    + destruct (Hin23 H2) as [H3 Hc23]. right. split; [congruence | exact H3].
Qed.

Lemma reloadCount_cons (t id : nat) (w w' : World) :
  reloads w' = id :: reloads w ->
  reloadCount t w' = if decide (id = t) then S (reloadCount t w)
                     else reloadCount t w.
Proof.
  intros Hlog. unfold reloadCount. rewrite Hlog, filter_cons.
  destruct (decide (id = t)); reflexivity.
Qed.

Section Guard.
Context `{PageHost} `{Extension}.

(** One evaluation pass over one tab respects the guard. *)
Lemma applyGlobalStateToTab_guardKept (t tabId : nat) (w : World) :
  guardKept t w (applyGlobalStateToTab tabId w).
Proof.
  unfold applyGlobalStateToTab.
  destruct (tabs w !! tabId) as [tab|]; [|apply guardKept_refl].
  destruct (negb (truthy (url tab)) || isRestrictedUrl (default "" (url tab)));
    [apply guardKept_refl|].
  destruct (negb (isAllowedWebsite (default "" (url tab))));
    [apply guardKept_refl|].
  destruct (isGlobalEnabled (currentState (local w))
            && truthy (fakeDate (currentState (local w)))
            && negb (bool_decide (tabId ∈ reloadedTabs w))) eqn:Hreload.
  - apply andb_true_iff in Hreload as [_ Hnew].
    apply negb_true_iff, bool_decide_eq_false in Hnew.
    unfold guardKept.
    rewrite (reloadCount_cons t tabId w) by reflexivity. simpl.
    destruct (decide (tabId = t)) as [-> | Hne]; split; intros Ht.
    + contradiction.
    + right. split; [reflexivity | set_solver].
    + split; [set_solver | reflexivity].
    + left. reflexivity.
  - apply guardKept_same; reflexivity.
Qed.

Lemma applyToQueried_guardKept (t : nat) (w : World) (entry : nat * Tab) :
  guardKept t w (applyToQueried w entry).
Proof.
  unfold applyToQueried.
  destruct (bool_decide (entry.1 ≠ 0%nat) && eligible entry.2);
    [apply applyGlobalStateToTab_guardKept | apply guardKept_refl].
Qed.

Lemma foldl_applyToQueried_guardKept (t : nat) (entries : list (nat * Tab))
  (w : World) :
  guardKept t w (foldl applyToQueried w entries).
Proof.
  revert w. induction entries as [|entry entries IH]; intros w; simpl.
  - apply guardKept_refl.
  - eapply guardKept_trans; [apply applyToQueried_guardKept | apply IH].
Qed.

(** So does a pass over all tabs. *)
Lemma applyGlobalStateToAllTabs_guardKept (t : nat) (w : World) :
  guardKept t w (applyGlobalStateToAllTabs w).
Proof.
  unfold applyGlobalStateToAllTabs.
  destruct (negb (isGlobalEnabled (currentState (local w))));
    [apply guardKept_refl | apply foldl_applyToQueried_guardKept].
Qed.

(** Every listener other than the storage-change listener, and other than
    the removal of [t] itself, respects the guard of [t]. *)
Lemma step_guardKept (t : nat) (w : World) (e : Event) :
  resetsGuard t e = false -> guardKept t w (step w e).
Proof.
  intros Hkeep. destruct e; simpl in *; try discriminate.
  - unfold onCreated. destruct (bool_decide (tabId ≠ 0%nat)).
    + eapply guardKept_trans; [|apply applyGlobalStateToTab_guardKept].
      apply guardKept_same; reflexivity.
    + apply guardKept_same; reflexivity.
  - unfold onUpdated. destruct (statusLoading && eligible tab).
    + eapply guardKept_trans; [|apply applyGlobalStateToTab_guardKept].
      apply guardKept_same; reflexivity.
    + apply guardKept_same; reflexivity.
  - apply bool_decide_eq_false in Hkeep.
    unfold guardKept, onRemoved, reloadCount. simpl. split; intros Ht.
    + split; [set_solver | reflexivity].
    + left. reflexivity.
  - unfold onMessage_active. destruct (bool_decide (tabId ≠ 0%nat));
      apply guardKept_same; reflexivity.
  - apply applyGlobalStateToAllTabs_guardKept.
  - apply guardKept_same; reflexivity.
  - apply guardKept_same; reflexivity.
  - apply guardKept_same; reflexivity.
Qed.

Lemma run_guardKept (t : nat) (events : list Event) (w : World) :
  Forall (fun e => resetsGuard t e = false) events ->
  guardKept t w (run w events).
Proof.
  unfold run. revert w.
  induction events as [|e events IH]; intros w Hall; simpl.
  - apply guardKept_refl.
  - inversion Hall as [|? ? He Hrest]; subst.
    eapply guardKept_trans; [apply step_guardKept, He | apply IH, Hrest].
Qed.

(** C2, as the code has it.  Over any sequence of events in which the
    storage-change listener does not run and tab [t] is not closed, tab
    [t] is force-reloaded at most once, and not at all if it was already
    marked in [reloadedTabs]: tab creation, navigation, load progress,
    reapply requests and writes to the store never make a marked tab
    reload again. *)
Theorem reload_guard_between_config_changes (t : nat) (w : World)
  (events : list Event) :
  Forall (fun e => resetsGuard t e = false) events ->
  (reloadCount t (run w events) <= S (reloadCount t w))%nat
  /\ (t ∈ reloadedTabs w ->
      t ∈ reloadedTabs (run w events)
      /\ reloadCount t (run w events) = reloadCount t w).
Proof.
  intros Hall. destruct (run_guardKept t events w Hall) as [Hin Hout].
  split; [|exact Hin].
  destruct (decide (t ∈ reloadedTabs w)) as [Ht | Ht].
  - destruct (Hin Ht) as [_ ->]. lia.
  - destruct (Hout Ht) as [-> | [-> _]]; lia.
Qed.

(** With global fake time disabled, a pass over all tabs does nothing. *)
Lemma applyGlobalStateToAllTabs_disabled (w : World) :
  isGlobalEnabled (currentState (local w)) = false ->
  applyGlobalStateToAllTabs w = w.
Proof. unfold applyGlobalStateToAllTabs. intros ->. reflexivity. Qed.

(** Hence the storage-change listener then only empties the guard: no tab
    is evaluated and no session storage is touched. *)
Lemma onStorageChanged_disabled (w : World) :
  isGlobalEnabled (currentState (local w)) = false ->
  onStorageChanged w
  = mkWorld (local w) (tabs w) (activeTabs w) ∅ (reloads w).
Proof.
  intros Hoff. unfold onStorageChanged.
  apply applyGlobalStateToAllTabs_disabled. exact Hoff.
Qed.

End Guard.

(** Seeding a disabled state into a readable storage removes both keys, so
    a later read resolves to the real instant. *)
Lemma seedSessionStorage_disabled (g : GlobalState) (m : gmap string string) :
  isGlobalEnabled g && truthy (fakeDate g) = false ->
  seedSessionStorage g (Items m)
  = Items (delete TICK_START_STORAGE_KEY (delete FAKE_DATE_STORAGE_KEY m)).
Proof. unfold seedSessionStorage. intros ->. reflexivity. Qed.

Lemma fakeNowDate_after_disabled_seed `{PageHost} (g : GlobalState)
  (m : gmap string string) (now : Z) :
  isGlobalEnabled g && truthy (fakeDate g) = false ->
  fakeNowDate (seedSessionStorage g (Items m)) now = newDate_now now.
Proof.
  intros Hoff. rewrite (seedSessionStorage_disabled g m Hoff).
  apply ClockEngine.fakeNowDate_unseeded.
  unfold getFromStorage, getItem.
  rewrite lookup_delete_ne by discriminate.
  apply lookup_delete_eq.
Qed.

Lemma reload_guard_between_config_changes_witness :
  let events :=
    [ TabUpdated 1 true (Sample.openTab Sample.stopped);
      ReapplyRequested;
      TabCreated 2 (Sample.openTab Sample.unseeded);
      TabUpdated 1 true (Sample.openTab Sample.stopped) ] in
  Forall (fun e => resetsGuard 1 e = false) events
  /\ reloadCount 1 (run (H := Sample.host) (H0 := Sample.extension)
                      Sample.seededWorld events)
     = reloadCount 1 Sample.seededWorld.
Proof.
  intros events.
  assert (Hall : Forall (fun e => resetsGuard 1 e = false) events)
    by (repeat constructor).
  split; [exact Hall|].
  destruct (reload_guard_between_config_changes (H := Sample.host)
              (H0 := Sample.extension) 1 Sample.seededWorld events Hall)
    as [_ Hmarked].
  apply Hmarked. simpl. apply elem_of_singleton. reflexivity.
Defined.

(** C2, as the claim states it, fails.  Starting with one open tab, a
    first configuration change and its notification mark the tab and
    reload it; a second change and its notification, with no tab event in
    between, reload the marked tab again. *)
Lemma second_config_change_reloads_again :
  let run := run (H := Sample.host) (H0 := Sample.extension) in
  let marked := run Sample.freshWorld (take 2 Sample.twoUpdates) in
  bool_decide (1%nat ∈ reloadedTabs marked) = true
  /\ reloadCount 1 marked = 1%nat
  /\ run marked (drop 2 Sample.twoUpdates) = run Sample.freshWorld Sample.twoUpdates
  /\ reloadCount 1 (run marked (drop 2 Sample.twoUpdates)) = 2%nat.
Proof. vm_compute. repeat split. Qed.

(** C5, at the failing input.  A seeded, already reloaded tab is open and
    the popup switches global fake time off.  After the write and its
    change notification the configuration is the disabled one, no reload
    was issued, and the tab's session storage still holds the fake date:
    a date read in the page still yields the fake instant, not the real
    one. *)
Theorem popup_disable_leaves_open_tab_faked :
  let w := run (H := Sample.host) (H0 := Sample.extension)
             Sample.seededWorld Sample.popupDisable in
  currentState (local w) = mkGlobalState false None None true
  /\ reloads w = reloads Sample.seededWorld
  /\ tabs w !! 1%nat = Some (Sample.openTab Sample.stopped)
  /\ fakeNowDate (H := Sample.host) Sample.stopped 1700000003000
     = mkDate (Num 1703500200000)
  /\ fakeNowDate (H := Sample.host) Sample.stopped 1700000003000
     <> newDate_now 1700000003000.
Proof. vm_compute. repeat split. discriminate. Qed.

(** The sibling path does restore real time: the external disable request
    stores an enabled state without a date, the pass over all tabs runs,
    and the keys are removed from the open tab. *)
Lemma api_disable_restores_real_time :
  let w := run (H := Sample.host) (H0 := Sample.extension)
             Sample.seededWorld Sample.apiDisable in
  currentState (local w) = mkGlobalState true None None true
  /\ reloads w = reloads Sample.seededWorld
  /\ tabs w !! 1%nat = Some (Sample.openTab Sample.unseeded)
  /\ fakeNowDate (H := Sample.host) Sample.unseeded 1700000003000
     = newDate_now 1700000003000.
Proof. vm_compute. repeat split. Qed.

End Coordinator.

(* ===================================================================== *)
(** * Writing an instant as a string and reading it back *)
(* ===================================================================== *)

Module Anchor.
Import Js.

(** Decimal digits, as code units. *)
Definition isDigitChar (c : ascii) : bool :=
  let n := nat_of_ascii c in ((48 <=? n)%nat && (n <=? 57)%nat).

Fixpoint digitsOnly (s : string) : bool :=
  match s with
  | EmptyString => true
  | String c r => isDigitChar c && digitsOnly r
  end.

Lemma pretty_N_char_digit (d : N) : isDigitChar (pretty_N_char d) = true.
Proof. unfold pretty_N_char. repeat case_match; reflexivity. Qed.

Lemma digitValue_pretty_N_char (d : N) :
  (d < 10)%N -> digitValue 10 (pretty_N_char d) = Some (Z.of_N d).
Proof.
  intros Hd.
  assert (d = 0 \/ d = 1 \/ d = 2 \/ d = 3 \/ d = 4 \/ d = 5 \/ d = 6
          \/ d = 7 \/ d = 8 \/ d = 9)%N as Hcases by lia.
  repeat (destruct Hcases as [-> | Hcases]; [reflexivity|]).
  subst d. reflexivity.
Qed.

Lemma pretty_N_go_digitsOnly (x : N) (s : string) :
  digitsOnly s = true -> digitsOnly (pretty_N_go x s) = true.
Proof.
  revert s. induction (N.lt_wf_0 x) as [x _ IH]. intros s Hs.
  destruct (decide (x = 0)%N) as [-> | Hx].
  - rewrite pretty_N_go_0. exact Hs.
  - rewrite pretty_N_go_step by lia. apply IH.
    + apply N.div_lt; lia.
    + simpl. rewrite pretty_N_char_digit, Hs. reflexivity.
Qed.

(** Reading the digits that [pretty] wrote gives the number back. *)
Lemma parseDigits_pretty_N_go (x : N) (s : string) :
  parseDigits 10 (pretty_N_go x s) None
  = parseDigits 10 s (if decide (x = 0)%N then None else Some (Z.of_N x)).
Proof.
  revert s. induction (N.lt_wf_0 x) as [x _ IH]. intros s.
  destruct (decide (x = 0)%N) as [-> | Hx].
  - rewrite pretty_N_go_0. reflexivity.
  - rewrite pretty_N_go_step by lia.
    rewrite IH by (apply N.div_lt; lia). simpl.
    rewrite digitValue_pretty_N_char by (apply N.mod_lt; lia).
    f_equal. f_equal.
    pose proof (N.div_mod x 10 ltac:(lia)) as Hdm.
    destruct (decide (x `div` 10 = 0)%N) as [Hq | Hq]; simpl.
    + rewrite Hq in Hdm. lia.
    + lia.
Qed.

(** A non-empty string of digits has no white space, sign or hex prefix
    for [parseInt] to strip. *)
Lemma digitsOnly_nothing_to_strip (s : string) :
  digitsOnly s = true ->
  trimStart s = s /\ stripSign s = (1, s) /\ stripHexPrefix s = (10, s).
Proof.
  destruct s as [|c r]; [intros _; repeat split|].
  simpl. intros Hd. apply andb_true_iff in Hd as [Hc Hr].
  assert (Hw : isWhiteSpace c = false).
  { destruct c as [[] [] [] [] [] [] [] []]; try reflexivity; discriminate. }
  rewrite Hw. repeat split.
  - destruct c as [[] [] [] [] [] [] [] []]; try reflexivity; discriminate.
  - destruct r as [|c' r'].
    + destruct c as [[] [] [] [] [] [] [] []]; reflexivity.
    + simpl in Hr. apply andb_true_iff in Hr as [Hc' _].
      destruct c as [[] [] [] [] [] [] [] []]; try reflexivity;
        destruct c' as [[] [] [] [] [] [] [] []]; try reflexivity; discriminate.
Qed.

Lemma pretty_N_digitsOnly (x : N) : digitsOnly (pretty x) = true.
Proof.
  unfold pretty, pretty_N. destruct (decide (x = 0)%N); [reflexivity|].
  apply pretty_N_go_digitsOnly. reflexivity.
Qed.

Lemma parseDigits_pretty_N (x : N) :
  parseDigits 10 (pretty x) None = Some (Z.of_N x).
Proof.
  unfold pretty, pretty_N. destruct (decide (x = 0)%N) as [-> | Hx].
  - reflexivity.
  - rewrite parseDigits_pretty_N_go. simpl.
    destruct (decide (x = 0)%N); [contradiction | reflexivity].
Qed.

Lemma parseInt_pretty_N (x : N) : parseInt (pretty x) = Num (Z.of_N x).
Proof.
  unfold parseInt.
  destruct (digitsOnly_nothing_to_strip _ (pretty_N_digitsOnly x))
    as (-> & -> & ->).
  rewrite parseDigits_pretty_N. f_equal. lia.
Qed.

(** [Number.parseInt(n.toString())] is [n] for every integer [n]. *)
Lemma parseInt_pretty (z : Z) : parseInt (pretty z) = Num z.
Proof.
  destruct z as [|p|p].
  - reflexivity.
  - change (pretty (Z.pos p)) with (pretty (N.pos p)).
    rewrite parseInt_pretty_N. reflexivity.
  - change (pretty (Z.neg p)) with (String "-" (pretty (N.pos p))).
    unfold parseInt. simpl trimStart. simpl stripSign.
    destruct (digitsOnly_nothing_to_strip _ (pretty_N_digitsOnly (N.pos p)))
      as (_ & _ & ->).
    rewrite parseDigits_pretty_N. reflexivity.
Qed.

End Anchor.

(* ===================================================================== *)
(** * Seeding a tab and reading the clock in it *)
(* ===================================================================== *)

Module Seeding.
Import Js Storage ReplaceDate Worker Spec StateStore.

(** The test both the coordinator and the injected function apply. *)
Definition effective (g : GlobalState) : bool :=
  isGlobalEnabled g && truthy (fakeDate g).

Lemma seedSessionStorage_effective (g : GlobalState) (m : gmap string string) :
  effective g = true ->
  seedSessionStorage g (Items m)
  = Items (if truthy (tickStartTimestamp g)
           then <[TICK_START_STORAGE_KEY := default "" (tickStartTimestamp g)]>
                  (<[FAKE_DATE_STORAGE_KEY := default "" (fakeDate g)]> m)
           else delete TICK_START_STORAGE_KEY
                  (<[FAKE_DATE_STORAGE_KEY := default "" (fakeDate g)]> m)).
Proof.
  unfold effective, seedSessionStorage. intros ->. simpl.
  destruct (truthy (tickStartTimestamp g)); reflexivity.
Qed.

Lemma seedSessionStorage_ineffective (g : GlobalState) (m : gmap string string) :
  effective g = false ->
  seedSessionStorage g (Items m)
  = Items (delete TICK_START_STORAGE_KEY (delete FAKE_DATE_STORAGE_KEY m)).
Proof. unfold effective, seedSessionStorage. intros ->. reflexivity. Qed.

Lemma seedSessionStorage_blocked (g : GlobalState) :
  seedSessionStorage g Blocked = Blocked.
Proof.
  unfold seedSessionStorage.
  destruct (isGlobalEnabled g && truthy (fakeDate g)); reflexivity.
Qed.

Lemma truthy_default (o : option string) :
  truthy o = true -> Some (default "" o) = o.
Proof. destruct o as [[|c r]|]; simpl; congruence. Qed.

(** X1.  Seeding writes the two keys of the extension and nothing else: every
    other entry of the page's session storage reads as before, whatever
    the state seeded and whether or not the storage can be accessed. *)
Theorem seedSessionStorage_other_keys (g : GlobalState) (ss : SessionStorage)
  (key : string) :
  key <> FAKE_DATE_STORAGE_KEY ->
  key <> TICK_START_STORAGE_KEY ->
  getFromStorage (seedSessionStorage g ss) key = getFromStorage ss key.
Proof.
  intros Hf Ht. destruct ss as [|m]; [rewrite seedSessionStorage_blocked; reflexivity|].
  destruct (effective g) eqn:He.
  - rewrite (seedSessionStorage_effective g m He).
    unfold getFromStorage, getItem.
    destruct (truthy (tickStartTimestamp g)).
    + rewrite !lookup_insert_ne by congruence. reflexivity.
    + rewrite lookup_delete_ne, lookup_insert_ne by congruence. reflexivity.
  - rewrite (seedSessionStorage_ineffective g m He).
    unfold getFromStorage, getItem.
    rewrite !lookup_delete_ne by congruence. reflexivity.
Qed.

Lemma seedSessionStorage_other_keys_witness :
  "cart" <> FAKE_DATE_STORAGE_KEY
  /\ "cart" <> TICK_START_STORAGE_KEY
  /\ getFromStorage
       (seedSessionStorage Sample.enabledStopped (Items {[ "cart" := "3 items" ]}))
       "cart"
     = Some "3 items".
Proof.
  assert (Hf : "cart" <> FAKE_DATE_STORAGE_KEY) by discriminate.
  assert (Ht : "cart" <> TICK_START_STORAGE_KEY) by discriminate.
  split; [exact Hf|]. split; [exact Ht|].
  rewrite (seedSessionStorage_other_keys Sample.enabledStopped _ "cart" Hf Ht).
  vm_compute. reflexivity.
Defined.

Lemma seed_reads (g : GlobalState) (m : gmap string string) :
  getFromStorage (seedSessionStorage g (Items m)) FAKE_DATE_STORAGE_KEY
  = (if effective g then fakeDate g else None)
  /\ getFromStorage (seedSessionStorage g (Items m)) TICK_START_STORAGE_KEY
     = (if effective g && truthy (tickStartTimestamp g)
        then tickStartTimestamp g else None).
Proof.
  destruct (effective g) eqn:He.
  - rewrite (seedSessionStorage_effective g m He).
    pose proof He as He'. apply andb_true_iff in He' as [_ Hd].
    unfold getFromStorage, getItem. simpl.
    destruct (truthy (tickStartTimestamp g)) eqn:Htick.
    + rewrite lookup_insert_ne by discriminate.
      rewrite !lookup_insert_eq. rewrite !truthy_default by assumption. auto.
    + rewrite lookup_delete_ne by discriminate.
      rewrite lookup_insert_eq, lookup_delete_eq.
      rewrite truthy_default by assumption. auto.
  - rewrite (seedSessionStorage_ineffective g m He).
    unfold getFromStorage, getItem. simpl.
    rewrite lookup_delete_ne by discriminate.
    rewrite !lookup_delete_eq. auto.
Qed.

Lemma seed_twice (g : GlobalState) (ss : SessionStorage) :
  seedSessionStorage g (seedSessionStorage g ss) = seedSessionStorage g ss.
Proof.
  destruct ss as [|m]; [rewrite !seedSessionStorage_blocked; reflexivity|].
  destruct (effective g) eqn:He.
  - rewrite !(seedSessionStorage_effective g _ He).
    destruct (truthy (tickStartTimestamp g)); apply (f_equal Items);
      apply map_eq; intros key;
      repeat (rewrite lookup_insert || rewrite lookup_delete);
      repeat case_decide; congruence.
  - rewrite !(seedSessionStorage_ineffective g _ He). apply (f_equal Items).
    apply map_eq; intros key. rewrite !lookup_delete.
    repeat case_decide; congruence.
Qed.

(** X2.  What the page reads back after a seeding into an accessible storage:
    the fake date and the anchor of an enabled state that has a date (an
    anchor only when the state has a non-empty one), and neither key
    otherwise. *)
Theorem seedSessionStorage_then_read (g : GlobalState) (m : gmap string string) :
  getFromStorage (seedSessionStorage g (Items m)) FAKE_DATE_STORAGE_KEY
  = (if effective g then fakeDate g else None)
  /\ getFromStorage (seedSessionStorage g (Items m)) TICK_START_STORAGE_KEY
     = (if effective g && truthy (tickStartTimestamp g)
        then tickStartTimestamp g else None).
Proof. exact (seed_reads g m). Qed.

(** X3.  Seeding the same state again changes nothing. *)
Theorem seedSessionStorage_idempotent (g : GlobalState) (ss : SessionStorage) :
  seedSessionStorage g (seedSessionStorage g ss) = seedSessionStorage g ss.
Proof. exact (seed_twice g ss). Qed.

Section Reading.
Context `{PageHost}.

(** The clock of a freshly seeded tab, for every state: real time unless
    the state is enabled with a date; the date itself when the state has
    no non-empty anchor; the date moved by the time elapsed since the
    anchor otherwise. *)
Lemma fakeNowDate_after_seed (g : GlobalState) (m : gmap string string)
  (now : Z) :
  fakeNowDate (seedSessionStorage g (Items m)) now
  = if effective g then
      if truthy (tickStartTimestamp g) then
        newDate_number
          (add (getTime (newDate_string (default "" (fakeDate g))))
             (sub (Num now) (parseInt (default "" (tickStartTimestamp g)))))
      else newDate_string (default "" (fakeDate g))
    else newDate_now now.
Proof.
  destruct (seed_reads g m) as [Hd Ht].
  destruct (effective g) eqn:He; simpl in Ht.
  - pose proof He as He'. apply andb_true_iff in He' as [_ Hdate].
    rewrite <- (truthy_default _ Hdate) in Hd.
    destruct (truthy (tickStartTimestamp g)) eqn:Htick.
    + rewrite <- (truthy_default _ Htick) in Ht.
      apply (ClockEngine.fakeNowDate_running _ now _ _ Hd Ht).
    + apply (ClockEngine.fakeNowDate_stopped _ now _ Hd Ht).
  - apply ClockEngine.fakeNowDate_unseeded, Hd.
Qed.

End Reading.

End Seeding.

(* ===================================================================== *)
(** * Laws of the state store *)
(* ===================================================================== *)

Module StoreLaws.
Import Js Storage Spec StateStore.
Local Open Scope async_scope.

Lemma spread_spread (g : GlobalState) (p : PartialGlobalState) :
  spread (spread g p) p = spread g p.
Proof.
  destruct p as [[e|] [d|] [t|] [c|]]; reflexivity.
Qed.

(** X4.  On a store that can be read and written, [setGlobalState] followed by
    a read returns the previous state overlaid with the partial, and
    writing the same partial a second time changes nothing. *)
Theorem setGlobalState_read_after_write (p : PartialGlobalState) (a : LocalArea) :
  readable a = true ->
  writable a = true ->
  getGlobalState (setGlobalState p a).2
  = (Normal (spread (currentState a) p), (setGlobalState p a).2)
  /\ setGlobalState p (setGlobalState p a).2 = setGlobalState p a.
Proof.
  intros Hr Hw. rewrite (setGlobalState_writable p a Hw). simpl.
  rewrite getGlobalState_returns, Hr, currentState_persisted. split; [reflexivity|].
  rewrite setGlobalState_writable by reflexivity. simpl.
  rewrite currentState_persisted, spread_spread. reflexivity.
Qed.

Lemma setGlobalState_read_after_write_witness :
  readable Sample.emptyArea = true
  /\ writable Sample.emptyArea = true
  /\ getGlobalState
       (setGlobalState (mkPartial None (Some (Some Sample.christmas)) None None)
          Sample.emptyArea).2
     = (Normal (mkGlobalState false (Some Sample.christmas) None true),
        Sample.areaOf (mkGlobalState false (Some Sample.christmas) None true)).
Proof.
  split; [reflexivity|]. split; [reflexivity|].
  destruct (setGlobalState_read_after_write
              (mkPartial None (Some (Some Sample.christmas)) None None)
              Sample.emptyArea eq_refl eq_refl) as [Hread _].
  rewrite Hread. vm_compute. reflexivity.
Defined.

(** X5.  [clearGlobalState] removes the record: whatever was stored, the next
    read returns the default state and the next write starts from it. *)
Theorem clearGlobalState_resets (a : LocalArea) (p : PartialGlobalState) :
  writable a = true ->
  clearGlobalState a = (Normal tt, mkLocalArea (readable a) true None)
  /\ currentState (clearGlobalState a).2 = DEFAULT_STATE
  /\ setGlobalState p (clearGlobalState a).2
     = (Normal tt,
        mkLocalArea (readable a) true
          (Some (allProperties (spread DEFAULT_STATE p)))).
Proof.
  intros Hw.
  assert (Hclear : clearGlobalState a
                   = (Normal tt, mkLocalArea (readable a) true None)).
  { unfold clearGlobalState, try_catch, local_remove. rewrite Hw. reflexivity. }
  assert (Hstate : currentState (mkLocalArea (readable a) true None)
                   = DEFAULT_STATE).
  { destruct (readable a);
      [apply currentState_readable | apply currentState_unreadable]; reflexivity. }
  rewrite Hclear. simpl. split; [reflexivity|]. split; [exact Hstate|].
  rewrite setGlobalState_writable by reflexivity. simpl. rewrite Hstate.
  reflexivity.
Qed.

Lemma clearGlobalState_resets_witness :
  writable (Sample.areaOf Sample.enabledStopped) = true
  /\ currentState (clearGlobalState (Sample.areaOf Sample.enabledStopped)).2
     = DEFAULT_STATE.
Proof.
  split; [reflexivity|].
  apply (clearGlobalState_resets (Sample.areaOf Sample.enabledStopped)
           noProperties eq_refl).
Defined.

(** When the storage rejects the removal, [clearGlobalState] throws and the
    record stays. *)
Lemma clearGlobalState_unwritable (a : LocalArea) :
  writable a = false ->
  clearGlobalState a = (Throw "storage.local.remove failed", a).
Proof.
  intros Hw. unfold clearGlobalState, try_catch, local_remove, throw.
  rewrite Hw. reflexivity.
Qed.

End StoreLaws.

(* ===================================================================== *)
(** * From a configuration request to the clock of a page *)
(* ===================================================================== *)

Module EndToEnd.
Import Js Storage ReplaceDate Worker Spec StateStore Writers Seeding.
Local Open Scope async_scope.

(** The state an accepted external update stores. *)
Definition apiState (now : Z) (s : string) (isStopped : bool) : GlobalState :=
  mkGlobalState true (Some s)
    (if isStopped then None else Some (pretty now)) isStopped.

(** The state the popup's enable path stores. *)
Definition popupState (now : Z) (parsed : string) (isStopped : bool)
  : GlobalState :=
  mkGlobalState true (Some parsed)
    (if isStopped then None else Some (pretty now)) isStopped.

Lemma pretty_nonempty (z : Z) : truthy (Some (pretty z)) = true.
Proof.
  destruct (pretty z) as [|c r] eqn:Hp; [|reflexivity].
  pose proof (Anchor.parseInt_pretty z) as Hround.
  rewrite Hp in Hround. discriminate.
Qed.

Section Requests.
Context `{PageHost} `{Extension}.

Lemma handleUpdateGlobalState_stores (now : Z)
  (data : ApiBridge.TimeTravelAPIRequest) (s : string) (a : LocalArea) :
  writable a = true ->
  ApiBridge.fakeDate data = VString s ->
  s <> "" ->
  isNaN (getTime (newDate_string s)) = false ->
  ApiBridge.handleUpdateGlobalState true now data a
  = (Normal (mkResponse true None (Some "Global state updated successfully")),
     mkLocalArea (readable a) true
       (Some (allProperties
          (apiState now s (default true (ApiBridge.isClockStopped data)))))).
Proof.
  intros Hw Hd Hne Hvalid.
  unfold ApiBridge.handleUpdateGlobalState, ApiBridge.sendMessage, try_catch.
  rewrite Hd. destruct s as [|c r]; [congruence|]. rewrite Hvalid.
  rewrite onMessage_updateGlobalStateFromAPI_writable by exact Hw.
  unfold apiState. simpl.
  destruct (default true (ApiBridge.isClockStopped data)); reflexivity.
Qed.

(** X6.  An accepted external update followed by the external read returns
    exactly what was requested: enabled, the date as sent, the clock flag
    as sent (stopped when left out), no anchor when stopped and the
    instant of the update as anchor when running. *)
Theorem api_update_then_get (now : Z) (data : ApiBridge.TimeTravelAPIRequest)
  (s : string) (a : LocalArea) :
  readable a = true ->
  writable a = true ->
  ApiBridge.fakeDate data = VString s ->
  s <> "" ->
  isNaN (getTime (newDate_string s)) = false ->
  let a' := (ApiBridge.handleUpdateGlobalState true now data a).2 in
  ApiBridgeRead.handleGetGlobalState true a'
  = (Normal
       (ApiBridgeRead.mkStateResponse true None
          (Some (apiState now s (default true (ApiBridge.isClockStopped data))))),
     a').
Proof.
  intros Hr Hw Hd Hne Hvalid a'. unfold a'.
  rewrite (handleUpdateGlobalState_stores now data s a Hw Hd Hne Hvalid).
  unfold ApiBridgeRead.handleGetGlobalState, ApiBridgeRead.sendGetGlobalState,
    onMessage_getGlobalState, try_catch, bind.
  simpl. rewrite getGlobalState_returns, Hr, currentState_persisted.
  reflexivity.
Qed.

(** X7.  An accepted external update at instant [now0], seeded into a tab, makes
    a read in that tab at instant [now1] return the requested date when the
    clock is stopped, and the requested date plus [now1 - now0] when it is
    running. *)
Theorem api_update_reaches_the_page (now0 now1 : Z)
  (data : ApiBridge.TimeTravelAPIRequest) (s : string) (a : LocalArea)
  (m : gmap string string) :
  readable a = true ->
  writable a = true ->
  ApiBridge.fakeDate data = VString s ->
  s <> "" ->
  isNaN (getTime (newDate_string s)) = false ->
  let a' := (ApiBridge.handleUpdateGlobalState true now0 data a).2 in
  fakeNowDate (seedSessionStorage (currentState a') (Items m)) now1
  = if default true (ApiBridge.isClockStopped data)
    then newDate_string s
    else newDate_number (add (getTime (newDate_string s)) (Num (now1 - now0))).
Proof.
  intros Hr Hw Hd Hne Hvalid a'. unfold a'.
  rewrite (handleUpdateGlobalState_stores now0 data s a Hw Hd Hne Hvalid).
  simpl. rewrite Hr, currentState_persisted, fakeNowDate_after_seed.
  unfold effective, apiState. simpl.
  destruct s as [|c r]; [congruence|]. simpl.
  destruct (default true (ApiBridge.isClockStopped data)); simpl.
  - reflexivity.
  - pose proof (pretty_nonempty now0) as Hn.
    pose proof (Anchor.parseInt_pretty now0) as Hround.
    destruct (pretty now0) as [|c' r']; [discriminate|].
    simpl. rewrite Hround. reflexivity.
Qed.

Lemma setGlobalFakeTime_enable_stores (now : Z) (s parsed : string)
  (isStopped : option bool) (w : option PartialGlobalState) :
  s <> "" ->
  parseDate s = Some parsed ->
  Popup.setGlobalFakeTime now true (Some s) isStopped (mkLocalArea true true w)
  = (Normal tt,
     mkLocalArea true true
       (Some (allProperties (popupState now parsed (default true isStopped))))).
Proof.
  intros Hne Hparse. unfold Popup.setGlobalFakeTime.
  destruct s as [|c r]; [congruence|]. simpl. rewrite Hparse.
  unfold bind, updateGlobalFakeDate, updateGlobalClockState, setGlobalEnabled.
  write_step. write_step. write_step.
  unfold popupState. destruct (default true isStopped); reflexivity.
Qed.

(** X8.  The popup's enable path at instant [now0], seeded into a tab, makes a
    read in that tab at instant [now1] return the parsed date when the
    clock is stopped, and the parsed date plus [now1 - now0] when it is
    running. *)
Theorem popup_enable_reaches_the_page (now0 now1 : Z) (s parsed : string)
  (isStopped : option bool) (w : option PartialGlobalState)
  (m : gmap string string) :
  s <> "" ->
  parseDate s = Some parsed ->
  parsed <> "" ->
  let a' := (Popup.setGlobalFakeTime now0 true (Some s) isStopped
               (mkLocalArea true true w)).2 in
  fakeNowDate (seedSessionStorage (currentState a') (Items m)) now1
  = if default true isStopped
    then newDate_string parsed
    else newDate_number
           (add (getTime (newDate_string parsed)) (Num (now1 - now0))).
Proof.
  intros Hne Hparse Hparsed a'. unfold a'.
  rewrite (setGlobalFakeTime_enable_stores now0 s parsed isStopped w Hne Hparse).
  simpl. rewrite currentState_persisted, fakeNowDate_after_seed.
  unfold effective, popupState. simpl.
  destruct parsed as [|c r]; [congruence|]. simpl.
  destruct (default true isStopped); simpl.
  - reflexivity.
  - pose proof (pretty_nonempty now0) as Hn.
    pose proof (Anchor.parseInt_pretty now0) as Hround.
    destruct (pretty now0) as [|c' r']; [discriminate|].
    simpl. rewrite Hround. reflexivity.
Qed.

(** X9.  When the storage rejects writes, no request changes the state: the
    external update and disable requests are answered with success =
    false and an error, and the popup's switch throws, for every input. *)
Theorem rejected_writes_change_nothing (a : LocalArea) :
  writable a = false ->
  (forall connected now data,
     exists e : string,
       ApiBridge.handleUpdateGlobalState connected now data a
       = (Normal (mkResponse false (Some e) None), a))
  /\ (forall connected now data,
        exists e : string,
          ApiBridge.handleDisableTimeTravel connected now data a
          = (Normal (mkResponse false (Some e) None), a))
  /\ (forall now enabled d isStopped,
        exists e : string,
          Popup.setGlobalFakeTime now enabled d isStopped a = (Throw e, a)).
Proof.
  intros Hw. repeat split.
  - intros connected now data.
    unfold ApiBridge.handleUpdateGlobalState, ApiBridge.sendMessage, try_catch.
    destruct (ApiBridge.fakeDate data) as [| |b|n|s|d];
      try (eexists; reflexivity).
    destruct s as [|c r]; [eexists; reflexivity|].
    destruct (isNaN (getTime (newDate_string (String c r))));
      [eexists; reflexivity|].
    destruct connected.
    + rewrite onMessage_updateGlobalStateFromAPI_unwritable by exact Hw.
      eexists; reflexivity.
    + eexists; reflexivity.
  - intros connected now data.
    unfold ApiBridge.handleDisableTimeTravel, ApiBridge.sendMessage, try_catch.
    destruct connected.
    + rewrite onMessage_updateGlobalStateFromAPI_unwritable by exact Hw.
      eexists; reflexivity.
    + eexists; reflexivity.
  - intros now enabled d isStopped. unfold Popup.setGlobalFakeTime.
    destruct (enabled && truthy d).
    + destruct (parseDate (default "" d)); [|eexists; reflexivity].
      unfold bind, updateGlobalFakeDate.
      rewrite setGlobalState_unwritable by exact Hw. eexists; reflexivity.
    + unfold bind, setGlobalEnabled.
      rewrite setGlobalState_unwritable by exact Hw. eexists; reflexivity.
Qed.

End Requests.

End EndToEnd.

Module EndToEndRuns.
Import Js Storage ReplaceDate Worker Spec EndToEnd.

Lemma api_update_then_get_witness :
  let data := Sample.updateRequest false in
  readable Sample.emptyArea = true
  /\ writable Sample.emptyArea = true
  /\ ApiBridge.fakeDate data = VString Sample.christmas
  /\ Sample.christmas <> ""
  /\ isNaN (getTime (newDate_string (H := Sample.host) Sample.christmas)) = false
  /\ (ApiBridgeRead.handleGetGlobalState true
        (ApiBridge.handleUpdateGlobalState (H := Sample.host) true
           1700000000000 data Sample.emptyArea).2).1
     = Normal
         (ApiBridgeRead.mkStateResponse true None
            (Some (mkGlobalState true (Some Sample.christmas)
                     (Some "1700000000000") false))).
Proof.
  intros data.
  assert (Hne : Sample.christmas <> "") by discriminate.
  assert (Hvalid : isNaN (getTime (newDate_string (H := Sample.host)
                                     Sample.christmas)) = false)
    by (vm_compute; reflexivity).
  repeat (split; [first [reflexivity | assumption]|]).
  rewrite (api_update_then_get (H := Sample.host) 1700000000000 data
             Sample.christmas Sample.emptyArea eq_refl eq_refl eq_refl
             Hne Hvalid).
  vm_compute. reflexivity.
Defined.

Lemma api_update_reaches_the_page_witness :
  let data := Sample.updateRequest false in
  readable Sample.emptyArea = true
  /\ writable Sample.emptyArea = true
  /\ ApiBridge.fakeDate data = VString Sample.christmas
  /\ Sample.christmas <> ""
  /\ isNaN (getTime (newDate_string (H := Sample.host) Sample.christmas)) = false
  /\ fakeNowDate (H := Sample.host)
       (seedSessionStorage
          (currentState
             (ApiBridge.handleUpdateGlobalState (H := Sample.host) true
                1700000000000 data Sample.emptyArea).2)
          (Items ∅))
       1700000002000
     = mkDate (Num 1703500202000).
Proof.
  intros data.
  assert (Hne : Sample.christmas <> "") by discriminate.
  assert (Hvalid : isNaN (getTime (newDate_string (H := Sample.host)
                                     Sample.christmas)) = false)
    by (vm_compute; reflexivity).
  repeat (split; [first [reflexivity | assumption]|]).
  rewrite (api_update_reaches_the_page (H := Sample.host) 1700000000000
             1700000002000 data Sample.christmas Sample.emptyArea ∅
             eq_refl eq_refl eq_refl Hne Hvalid).
  vm_compute. reflexivity.
Defined.

Lemma popup_enable_reaches_the_page_witness :
  Sample.christmas <> ""
  /\ parseDate (Extension := Sample.extension) Sample.christmas
     = Some Sample.christmas
  /\ fakeNowDate (H := Sample.host)
       (seedSessionStorage
          (currentState
             (Popup.setGlobalFakeTime (H := Sample.extension) 1700000000000
                true (Some Sample.christmas) (Some false)
                (mkLocalArea true true None)).2)
          (Items ∅))
       1700000002000
     = mkDate (Num 1703500202000).
Proof.
  assert (Hne : Sample.christmas <> "") by discriminate.
  assert (Hparse : parseDate (Extension := Sample.extension) Sample.christmas
                   = Some Sample.christmas) by (vm_compute; reflexivity).
  split; [exact Hne|]. split; [exact Hparse|].
  rewrite (popup_enable_reaches_the_page (H := Sample.host)
             (H0 := Sample.extension) 1700000000000 1700000002000
             Sample.christmas Sample.christmas (Some false) None ∅
             Hne Hparse Hne).
  vm_compute. reflexivity.
Defined.

Lemma rejected_writes_change_nothing_witness :
  let a := mkLocalArea true false (Some (allProperties Sample.enabledStopped)) in
  writable a = false
  /\ exists e : string,
       Popup.setGlobalFakeTime (H := Sample.extension) 1700000002000 false
         None None a
       = (Throw e, a).
Proof.
  intros a. split; [reflexivity|].
  destruct (rejected_writes_change_nothing (H := Sample.host)
              (H0 := Sample.extension) a eq_refl) as (_ & _ & Hpopup).
  apply Hpopup.
Defined.

End EndToEndRuns.

(* ===================================================================== *)
(** * The debug helper, the popup's view and the active report *)
(* ===================================================================== *)

Module Helpers.
Import Js Storage ReplaceDate Worker Spec StateStore Seeding.
Local Open Scope async_scope.

(** X11.  [fixClockState] on a store that can be read and written.  It
    returns the state it leaves stored, with the enabled flag, the date and
    the clock flag as they were.  For an enabled state with a date, the
    anchor of a stopped clock becomes null when it was a non-empty string,
    the anchor of a running clock that had none becomes the current
    instant in decimal digits, and every other anchor stays; the result
    has its clock stopped exactly when it has no non-empty anchor.  A state
    that already agrees, and any state that is not enabled with a date, is
    returned as it is and nothing is written. *)
Theorem fixClockState_repairs (now : Z) (w : option PartialGlobalState) :
  let a := mkLocalArea true true w in
  let g := currentState a in
  exists (g' : GlobalState) (a' : LocalArea),
    Debug.fixClockState now a = (Normal (inl g'), a')
    /\ currentState a' = g'
    /\ isGlobalEnabled g' = isGlobalEnabled g
    /\ fakeDate g' = fakeDate g
    /\ isClockStopped g' = isClockStopped g
    /\ tickStartTimestamp g'
       = (if effective g then
            if isClockStopped g then
              if truthy (tickStartTimestamp g) then None
              else tickStartTimestamp g
            else
              if truthy (tickStartTimestamp g) then tickStartTimestamp g
              else Some (pretty now)
          else tickStartTimestamp g)
    /\ (effective g = true ->
        isClockStopped g' = negb (truthy (tickStartTimestamp g')))
    /\ (effective g = false \/
        isClockStopped g = negb (truthy (tickStartTimestamp g)) ->
        g' = g /\ a' = a).
Proof.
  intros a g. unfold Debug.fixClockState, try_catch, bind.
  rewrite getGlobalState_returns. fold g.
  change (isGlobalEnabled g && truthy (fakeDate g)) with (effective g).
  destruct (effective g) eqn:He.
  - destruct (isClockStopped g) eqn:Hs; destruct (truthy (tickStartTimestamp g)) eqn:Ht;
      cbn [negb andb].
    + (* stopped with an anchor: cleared *)
      rewrite updateGlobalClockState_writable by reflexivity.
      rewrite getGlobalState_returns, currentState_persisted. fold g.
      do 2 eexists. split; [reflexivity|]. simpl.
      rewrite currentState_persisted. simpl.
      repeat (split; [congruence|]).
      intros [Hoff | Hagree]; discriminate.
    + (* stopped without an anchor: left alone *)
      unfold ret. rewrite getGlobalState_returns. fold g.
      do 2 eexists. split; [reflexivity|].
      repeat split; rewrite ?Hs, ?Ht; reflexivity.
    + (* running with an anchor: left alone *)
      unfold ret. rewrite getGlobalState_returns. fold g.
      do 2 eexists. split; [reflexivity|].
      repeat split; rewrite ?Hs, ?Ht; reflexivity.
    + (* running without an anchor: anchored now *)
      rewrite updateGlobalClockState_writable by reflexivity.
      rewrite getGlobalState_returns, currentState_persisted. fold g.
      do 2 eexists. split; [reflexivity|]. simpl.
      rewrite currentState_persisted. simpl.
      pose proof (EndToEnd.pretty_nonempty now) as Hn.
      destruct (pretty now) as [|c r]; [discriminate|]. simpl.
      repeat (split; [congruence|]).
      intros [Hoff | Hagree]; discriminate.
  - unfold ret. do 2 eexists. split; [reflexivity|].
    repeat (split; [reflexivity|]).
    split; [intros Hon; discriminate | intros _; split; reflexivity].
Qed.

(** When the repair cannot be stored, [fixClockState] returns the error
    and the state stays as it was. *)
Lemma fixClockState_unwritable (now : Z) (w : option PartialGlobalState) :
  let a := mkLocalArea true false w in
  effective (currentState a) = true ->
  isClockStopped (currentState a)
  = truthy (tickStartTimestamp (currentState a)) ->
  Debug.fixClockState now a = (Normal (inr "storage.local.set failed"), a).
Proof.
  intros a He Hbad. unfold Debug.fixClockState, try_catch, bind.
  rewrite getGlobalState_returns.
  change (isGlobalEnabled (currentState a) && truthy (fakeDate (currentState a)))
    with (effective (currentState a)).
  rewrite He, Hbad.
  destruct (truthy (tickStartTimestamp (currentState a))); cbn [negb andb];
    rewrite updateGlobalClockState_unwritable by reflexivity; reflexivity.
Qed.

Section View.
Context `{PageHost} `{PopupHost}.

(** X12.  What the popup shows agrees with the clock of a tab seeded with the
    same state, provided a stopped state carries no anchor.  Disabled, or
    enabled without a date: the popup reports disabled and the page reads
    real time.  Running with an anchor: the popup shows the formatted
    instant the page reads.  Otherwise the popup shows the stored date
    string and the page reads that date. *)
Theorem popup_view_matches_page_clock (now : Z) (g : GlobalState)
  (wr : bool) (m : gmap string string) :
  (isClockStopped g = true -> truthy (tickStartTimestamp g) = false) ->
  let a := mkLocalArea true wr (Some (allProperties g)) in
  let page := fakeNowDate (seedSessionStorage g (Items m)) now in
  let running := negb (isClockStopped g) && truthy (tickStartTimestamp g) in
  PopupState.getGlobalFakeTimeState now a
  = (Normal
       (if effective g then
          PopupState.mkFakeTimeState true
            (Some (if running then formatLocalTime page
                   else default "" (fakeDate g)))
            (isClockStopped g)
        else PopupState.mkFakeTimeState false None true),
     a)
  /\ (effective g = true -> running = false ->
      page = newDate_string (default "" (fakeDate g)))
  /\ (effective g = false -> page = newDate_now now).
Proof.
  intros Hclock a page running. unfold page.
  rewrite fakeNowDate_after_seed.
  unfold PopupState.getGlobalFakeTimeState, bind.
  rewrite getGlobalState_returns. unfold a.
  rewrite currentState_persisted.
  rewrite <- negb_andb.
  change (isGlobalEnabled g && truthy (fakeDate g)) with (effective g).
  destruct (effective g) eqn:He; simpl.
  - unfold running.
    destruct (isClockStopped g) eqn:Hs; simpl.
    + rewrite (Hclock eq_refl). repeat split; auto. discriminate.
    + destruct (truthy (tickStartTimestamp g)); repeat split; auto; discriminate.
  - repeat split; auto. discriminate.
Qed.

End View.

Lemma checkAndApplyGlobalState_result (g : GlobalState)
  (ss : SessionStorage) :
  (SendActive.checkAndApplyGlobalState (Normal (Some g)) ss).2
  = (if effective g then seedSessionStorage g ss else ss)
  /\ (SendActive.checkAndApplyGlobalState (Normal (Some g)) ss).1
     = effective g && match ss with Blocked => false | Items _ => true end.
Proof.
  unfold SendActive.checkAndApplyGlobalState, seedSessionStorage, effective.
  destruct (isGlobalEnabled g && truthy (fakeDate g)); [|split; reflexivity].
  destruct ss as [|m]; simpl; [split; reflexivity|].
  destruct (truthy (tickStartTimestamp g)); split; reflexivity.
Qed.

(** X13.  [checkAndApplyGlobalState] writes what the worker's injection writes
    when the state is enabled with a date, and otherwise leaves the
    session storage exactly as it is: unlike the injection it never
    removes a fake date that is already there. *)
Theorem checkAndApplyGlobalState_versus_seeding (g : GlobalState)
  (ss : SessionStorage) :
  (SendActive.checkAndApplyGlobalState (Normal (Some g)) ss).2
  = (if effective g then seedSessionStorage g ss else ss)
  /\ (SendActive.checkAndApplyGlobalState (Normal (Some g)) ss).1
     = effective g && match ss with Blocked => false | Items _ => true end.
Proof. exact (checkAndApplyGlobalState_result g ss). Qed.

(** X14.  The retry of [initializeAndSendActive] can never be scheduled: when the
    global state was applied, the fake date is in the session storage and
    the [active] message goes out instead. *)
Theorem initializeAndSendActive_never_retries
  (response : completion (option GlobalState)) (ss : SessionStorage) :
  (SendActive.initializeAndSendActive response ss).1 <> SendActive.RetryScheduled.
Proof.
  unfold SendActive.initializeAndSendActive.
  destruct (SendActive.checkAndApplyGlobalState response ss) as [applied ss']
    eqn:Hcheck.
  destruct applied.
  - (* applied: the date was just written *)
    unfold SendActive.checkAndApplyGlobalState in Hcheck.
    destruct response as [[g|]|e]; try discriminate.
    destruct (isGlobalEnabled g && truthy (fakeDate g)) eqn:He; [|discriminate].
    apply andb_true_iff in He as [_ Hd].
    destruct ss as [|m]; simpl in Hcheck; [discriminate|].
    assert (Hread : getItem ss' FAKE_DATE_STORAGE_KEY = Normal (fakeDate g)).
    { destruct (truthy (tickStartTimestamp g)); injection Hcheck as <-;
        unfold getItem; f_equal.
      - rewrite lookup_insert_ne by discriminate.
        rewrite lookup_insert_eq. apply truthy_default, Hd.
      - rewrite lookup_delete_ne by discriminate.
        rewrite lookup_insert_eq. apply truthy_default, Hd. }
    rewrite Hread, Hd.
    destruct ss' as [|m']; simpl; discriminate.
  - destruct (getItem ss' FAKE_DATE_STORAGE_KEY) as [d|e]; simpl; [|discriminate].
    destruct (truthy d); [|discriminate].
    destruct (getItem ss' TICK_START_STORAGE_KEY); discriminate.
Qed.

(** X15.  With an enabled state and an accessible storage, the [active] message
    carries the global date, the global anchor when it is non-empty, and
    the stopped flag of a clock without anchor; the storage ends as the
    worker's injection would leave it. *)
Theorem initializeAndSendActive_reports_global_state (g : GlobalState)
  (m : gmap string string) :
  effective g = true ->
  SendActive.initializeAndSendActive (Normal (Some g)) (Items m)
  = (SendActive.SentActive
       (SendActive.mkActivation (default "" (fakeDate g))
          (if truthy (tickStartTimestamp g) then tickStartTimestamp g else None)
          (negb (truthy (tickStartTimestamp g)))),
     seedSessionStorage g (Items m)).
Proof.
  intros He. unfold SendActive.initializeAndSendActive.
  destruct (checkAndApplyGlobalState_result g (Items m)) as [Hss Happlied].
  destruct (SendActive.checkAndApplyGlobalState (Normal (Some g)) (Items m))
    as [applied ss']. simpl in Hss, Happlied. rewrite He in Hss. subst ss'.
  destruct (seed_reads g m) as [Hd Ht].
  rewrite He in Hd, Ht. simpl in Ht.
  rewrite (seedSessionStorage_effective g m He) in *.
  unfold getFromStorage in Hd, Ht.
  pose proof He as He'. apply andb_true_iff in He' as [_ Hdate].
  destruct (truthy (tickStartTimestamp g)) eqn:Htick; simpl in *;
    rewrite Hd, Ht, Hdate; simpl; rewrite ?Htick; reflexivity.
Qed.

End Helpers.

Module HelpersRuns.
Import Js Storage ReplaceDate Worker Spec Seeding Helpers.

(** A stopped state that still carries an anchor. *)
Definition stoppedWithAnchor : GlobalState :=
  mkGlobalState true (Some Sample.christmas) (Some "1700000000000") true.

(** A running state that has no anchor. *)
Definition runningWithoutAnchor : GlobalState :=
  mkGlobalState true (Some Sample.christmas) None false.

Lemma fixClockState_repairs_witness :
  (exists a' : LocalArea,
     Debug.fixClockState 1700000002000 (Sample.areaOf runningWithoutAnchor)
     = (Normal
          (inl (mkGlobalState true (Some Sample.christmas)
                  (Some "1700000002000") false)),
        a')
     /\ currentState a'
        = mkGlobalState true (Some Sample.christmas) (Some "1700000002000") false)
  /\ (exists a' : LocalArea,
        Debug.fixClockState 1700000002000 (Sample.areaOf stoppedWithAnchor)
        = (Normal (inl Sample.enabledStopped), a')
        /\ currentState a' = Sample.enabledStopped).
Proof.
  split.
  - destruct (fixClockState_repairs 1700000002000
                (Some (allProperties runningWithoutAnchor)))
      as (g' & a' & Hrun & Hstate & He & Hd & Hs & Ht & _).
    exists a'. unfold Sample.areaOf.
    assert (Hg : g' = mkGlobalState true (Some Sample.christmas)
                        (Some "1700000002000") false).
    { destruct g' as [e d t c]. simpl in He, Hd, Hs, Ht.
      vm_compute in He, Hd, Hs, Ht. subst e d t c. reflexivity. }
    rewrite Hrun, Hstate, Hg. split; reflexivity.
  - destruct (fixClockState_repairs 1700000002000
                (Some (allProperties stoppedWithAnchor)))
      as (g' & a' & Hrun & Hstate & He & Hd & Hs & Ht & _).
    exists a'. unfold Sample.areaOf.
    assert (Hg : g' = Sample.enabledStopped).
    { destruct g' as [e d t c]. simpl in He, Hd, Hs, Ht.
      vm_compute in He, Hd, Hs, Ht. subst e d t c. reflexivity. }
    rewrite Hrun, Hstate, Hg. split; reflexivity.
Defined.

Lemma popup_view_matches_page_clock_witness :
  let g := mkGlobalState true (Some Sample.christmas) (Some "1700000000000") false in
  (isClockStopped g = true -> truthy (tickStartTimestamp g) = false)
  /\ (PopupState.getGlobalFakeTimeState (H := Sample.host)
        (H0 := {| formatLocalTime := Date_toString (PageHost := Sample.host) |})
        1700000002000 (Sample.areaOf g)).1
     = Normal (PopupState.mkFakeTimeState true (Some "1703500202000") false).
Proof.
  intros g.
  assert (Hclock : isClockStopped g = true -> truthy (tickStartTimestamp g) = false)
    by discriminate.
  split; [exact Hclock|].
  destruct (popup_view_matches_page_clock (H := Sample.host)
              (H0 := {| formatLocalTime := Date_toString (PageHost := Sample.host) |})
              1700000002000 g true ∅ Hclock) as [Hview _].
  unfold Sample.areaOf. rewrite Hview. vm_compute. reflexivity.
Defined.

Lemma initializeAndSendActive_never_retries_witness :
  (SendActive.initializeAndSendActive (Normal (Some Sample.enabledStopped))
     (Items ∅)).1
  <> SendActive.RetryScheduled.
Proof.
  apply (initializeAndSendActive_never_retries
           (Normal (Some Sample.enabledStopped)) (Items ∅)).
Defined.

Lemma initializeAndSendActive_reports_global_state_witness :
  effective Sample.enabledStopped = true
  /\ (SendActive.initializeAndSendActive (Normal (Some Sample.enabledStopped))
        (Items ∅)).1
     = SendActive.SentActive (SendActive.mkActivation Sample.christmas None true).
Proof.
  split; [reflexivity|].
  rewrite (initializeAndSendActive_reports_global_state Sample.enabledStopped ∅
             eq_refl).
  reflexivity.
Defined.

End HelpersRuns.

(* ===================================================================== *)
(** * The stand-alone page *)
(* ===================================================================== *)

Module SimplePage.
Import Js SimpleApp.

(** The states in which [getFakeDate] returns the stored date without
    naming the global [Date]. *)
Definition returnsStoredDate (this : TimeTravel) : bool :=
  isEnabled this && bool_decide (is_Some (fakeDate this))
  && (isClockStopped this || negb (truthyNumber (tickStartTimestamp this))).

(** X16.  Once [injectFakeDate] has replaced [window.Date], [getFakeDate]
    returns only for an enabled state whose clock is stopped or has no
    anchor, and then it returns the stored date.  In every other state
    (disabled, or running from an anchor) it calls itself through the
    replaced [Date] until the call stack is exhausted, however deep the
    stack. *)
Theorem getFakeDate_through_replaced_Date (depth : nat) (this : TimeTravel)
  (now : Z) :
  getFakeDate depth ReplaceDate.Fake this now
  = if returnsStoredDate this then fakeDate this else None.
Proof.
  unfold returnsStoredDate.
  induction depth as [|depth IH]; simpl;
    destruct (isEnabled this); simpl;
    destruct (fakeDate this) as [d|] eqn:Hd; simpl; try reflexivity;
    try (rewrite IH; reflexivity);
    destruct (isClockStopped this); simpl; try reflexivity;
    destruct (truthyNumber (tickStartTimestamp this)); simpl; try reflexivity.
  rewrite IH. reflexivity.
Qed.

(** X17.  With the genuine [Date]: restarting the clock at instant [t0] makes a
    later read at [t1] return the stored date plus [t1 - t0]; stopping it
    returns the stored date itself, whatever time passed while it ran;
    resetting returns the real instant. *)
Theorem clock_controls_with_genuine_Date (depth : nat) (this : TimeTravel)
  (d : Date) (t0 t1 : Z) (n : number) :
  isEnabled this = true ->
  fakeDate this = Some d ->
  t0 <> 0 ->
  getFakeDate depth ReplaceDate.Original
    (onStopClockChange false (Num t0) this) t1
  = Some (newDate_number (add (getTime d) (Num (t1 - t0))))
  /\ getFakeDate depth ReplaceDate.Original (onStopClockChange true n this) t1
     = Some d
  /\ getFakeDate depth ReplaceDate.Original (resetToRealTime this) t1
     = Some (newDate_now t1).
Proof.
  intros He Hd Ht0.
  destruct depth; simpl; rewrite He, Hd; simpl;
    destruct (Z.eqb_spec t0 0); try contradiction; simpl;
    repeat split; reflexivity.
Qed.

Lemma clock_controls_with_genuine_Date_witness :
  let this := mkTimeTravel (Some (mkDate (Num 1703500200000))) None true true in
  isEnabled this = true
  /\ fakeDate this = Some (mkDate (Num 1703500200000))
  /\ 1700000000000 <> 0
  /\ getFakeDate 0 ReplaceDate.Original
       (onStopClockChange false (Num 1700000000000) this) 1700000002000
     = Some (mkDate (Num 1703500202000)).
Proof.
  intros this.
  assert (Ht0 : 1700000000000 <> 0) by discriminate.
  split; [reflexivity|]. split; [reflexivity|]. split; [exact Ht0|].
  destruct (clock_controls_with_genuine_Date 0 this (mkDate (Num 1703500200000))
              1700000000000 1700000002000 NaN eq_refl eq_refl Ht0)
    as [Hrestart _].
  rewrite Hrestart. vm_compute. reflexivity.
Defined.

(** X18.  With the genuine [Date]: applying a date while the clock runs anchors
    it at the instant of the click, so a later read returns the new date
    plus the time since; switching the enable toggle on keeps the old
    anchor, so after a reset, which leaves no anchor, the toggle gives a
    clock that counts as running and yet always returns the new date. *)
Theorem apply_anchors_but_toggle_does_not (depth : nat) (this : TimeTravel)
  (d : Date) (t0 t1 : Z) :
  t0 <> 0 ->
  (isClockStopped this = false ->
   getFakeDate depth ReplaceDate.Original
     (applyFakeDate (Some d) (Num t0) this) t1
   = Some (newDate_number (add (getTime d) (Num (t1 - t0)))))
  /\ isClockStopped (onEnableChange true (Some d) (resetToRealTime this)) = false
  /\ getFakeDate depth ReplaceDate.Original
       (onEnableChange true (Some d) (resetToRealTime this)) t1
     = Some d.
Proof.
  intros Ht0. split; [|split].
  - intros Hrun. unfold applyFakeDate. rewrite Hrun.
    destruct depth; simpl; destruct (Z.eqb_spec t0 0); try contradiction;
      reflexivity.
  - reflexivity.
  - destruct depth; reflexivity.
Qed.

Lemma apply_anchors_but_toggle_does_not_witness :
  let this := mkTimeTravel None None false false in
  let d := mkDate (Num 1703500200000) in
  1700000000000 <> 0
  /\ isClockStopped this = false
  /\ getFakeDate 0 ReplaceDate.Original
       (applyFakeDate (Some d) (Num 1700000000000) this) 1700000002000
     = Some (mkDate (Num 1703500202000))
  /\ getFakeDate 0 ReplaceDate.Original
       (onEnableChange true (Some d) (resetToRealTime this)) 1700000002000
     = Some d.
Proof.
  intros this d.
  assert (Ht0 : 1700000000000 <> 0) by discriminate.
  destruct (apply_anchors_but_toggle_does_not 0 this d 1700000000000
              1700000002000 Ht0) as (Happly & _ & Htoggle).
  split; [exact Ht0|]. split; [reflexivity|].
  split; [|exact Htoggle].
  rewrite (Happly eq_refl). vm_compute. reflexivity.
Defined.

End SimplePage.

(* ===================================================================== *)
(** * The client library *)
(* ===================================================================== *)

Module Client.
Import Js ApiClient.

Fixpoint occurs (c : ascii) (s : string) : bool :=
  match s with
  | EmptyString => false
  | String c' r => Ascii.eqb c c' || occurs c r
  end.

Lemma digitsOnly_no_underscore (s : string) :
  Anchor.digitsOnly s = true -> occurs "_" s = false.
Proof.
  induction s as [|c r IH]; [reflexivity|]. simpl.
  intros Hd. apply andb_true_iff in Hd as [Hc Hr]. rewrite (IH Hr).
  destruct c as [[] [] [] [] [] [] [] []]; try reflexivity; discriminate.
Qed.

Lemma pretty_Z_no_underscore (z : Z) : occurs "_" (pretty z) = false.
Proof.
  destruct z as [|p|p].
  - reflexivity.
  - apply digitsOnly_no_underscore, (Anchor.pretty_N_digitsOnly (N.pos p)).
  - change (pretty (Z.neg p)) with (String "-" (pretty (N.pos p))). simpl.
    apply digitsOnly_no_underscore, (Anchor.pretty_N_digitsOnly (N.pos p)).
Qed.

(** Two strings cut at the first occurrence of a separator agree on both
    sides of it. *)
Lemma cut_at_separator (c : ascii) (s1 s2 t1 t2 : string) :
  occurs c s1 = false ->
  occurs c s2 = false ->
  (s1 ++ String c t1 = s2 ++ String c t2)%string ->
  s1 = s2 /\ t1 = t2.
Proof.
  revert s2. induction s1 as [|a1 r1 IH]; intros [|a2 r2]; simpl;
    intros H1 H2 Heq.
  - injection Heq as <-. auto.
  - injection Heq as <- _. rewrite Ascii.eqb_refl in H2. discriminate.
  - injection Heq as -> _. rewrite Ascii.eqb_refl in H1. discriminate.
  - injection Heq as <- Hrest.
    apply orb_false_iff in H1 as [_ H1]. apply orb_false_iff in H2 as [_ H2].
    destruct (IH r2 H1 H2 Hrest) as [-> ->]. auto.
Qed.

Lemma requestIdOf_inj (now1 now2 : Z) (n1 n2 : nat) :
  requestIdOf now1 n1 = requestIdOf now2 n2 -> now1 = now2 /\ n1 = n2.
Proof.
  unfold requestIdOf. simpl. intros Heq. injection Heq as Heq.
  destruct (cut_at_separator "_" _ _ _ _ (pretty_Z_no_underscore now1)
              (pretty_Z_no_underscore now2) Heq) as [Hnow Hn].
  split; [apply (inj pretty), Hnow | apply (inj pretty), Hn].
Qed.

(** X19.  Request ids never repeat: two calls of [generateRequestId] on the same
    client, however many other calls lie between them and whatever the
    clock shows, return different ids. *)
Theorem generateRequestId_never_repeats (this : TimeTravelAPI)
  (now1 now2 : Z) (between : list Z) :
  let '(id1, this1) := generateRequestId now1 this in
  let this2 := foldl (fun c t => (generateRequestId t c).2) this1 between in
  let '(id2, _) := generateRequestId now2 this2 in
  id1 <> id2.
Proof.
  simpl.
  assert (Hgrow : forall l c,
            (requestId c <= requestId
               (foldl (fun c t => (generateRequestId t c).2) c l))%nat).
  { induction l as [|t l IH]; intros c; simpl; [lia|].
    etransitivity; [|apply IH]. simpl. lia. }
  intros Heq. apply requestIdOf_inj in Heq as [_ Hn].
  specialize (Hgrow between
    (mkClient (S (requestId this)) (pendingRequests this) (listeners this)
       (settled this))).
  simpl in Hgrow. lia.
Qed.

Lemma generateRequestId_never_repeats_witness :
  (generateRequestId 1700000000000 newClient).1
  <> (generateRequestId 1700000000000
        (generateRequestId 1700000000000 newClient).2).1.
Proof.
  exact (generateRequestId_never_repeats newClient 1700000000000
           1700000000000 []).
Defined.

(** What holds of a client at every moment. *)
Record Consistent (c : TimeTravelAPI) : Prop := {
  same_sets : listeners c = pendingRequests c;
  settled_once : NoDup (settled c).*1;
  settled_not_pending : forall id, id ∈ (settled c).*1 -> id ∉ pendingRequests c;
  ids_issued : forall id,
    id ∈ pendingRequests c \/ id ∈ (settled c).*1 ->
    exists now k, id = requestIdOf now k /\ (k <= requestId c)%nat;
}.

Lemma newClient_consistent : Consistent newClient.
Proof.
  split; simpl.
  - reflexivity.
  - constructor.
  - intros id Hid. inversion Hid.
  - intros id [Hid | Hid]; [set_solver | inversion Hid].
Qed.

Lemma sendMessage_consistent (now : Z) (c : TimeTravelAPI) :
  Consistent c -> Consistent (sendMessage now c).2.
Proof.
  intros [Hsame Hdup Hnp Hids]. unfold sendMessage, generateRequestId. simpl.
  assert (Hfresh : forall id,
            id ∈ pendingRequests c \/ id ∈ (settled c).*1 ->
            id <> requestIdOf now (S (requestId c))).
  { intros id Hid Heq. destruct (Hids id Hid) as (now' & k & -> & Hk).
    apply requestIdOf_inj in Heq as [_ ->]. lia. }
  split; simpl.
  - rewrite Hsame. reflexivity.
  - exact Hdup.
  - intros id Hid Hin. specialize (Hfresh id (or_intror Hid)).
    apply elem_of_union in Hin as [Hin | Hin].
    + apply elem_of_singleton in Hin. contradiction.
    + exact (Hnp id Hid Hin).
  - intros id [Hid | Hid].
    + apply elem_of_union in Hid as [Hid | Hid].
      * apply elem_of_singleton in Hid as ->. exists now, (S (requestId c)).
        split; [reflexivity | lia].
      * destruct (Hids id (or_introl Hid)) as (now' & k & -> & Hk).
        exists now', k. split; [reflexivity | lia].
    + destruct (Hids id (or_intror Hid)) as (now' & k & -> & Hk).
      exists now', k. split; [reflexivity | lia].
Qed.

(** Settling a pending request keeps the client consistent. *)
Lemma settle_consistent (id : string) (how : Settlement) (c : TimeTravelAPI) :
  Consistent c ->
  id ∈ pendingRequests c ->
  Consistent
    (mkClient (requestId c) (pendingRequests c ∖ {[id]}) (listeners c ∖ {[id]})
       ((id, how) :: settled c)).
Proof.
  intros [Hsame Hdup Hnp Hids] Hpending. split; simpl.
  - rewrite Hsame. reflexivity.
  - constructor; [|exact Hdup]. intros Hin. exact (Hnp id Hin Hpending).
  - intros id' Hin Hstill. apply elem_of_difference in Hstill as [Hstill Hne].
    apply elem_of_cons in Hin as [-> | Hin].
    + apply Hne, elem_of_singleton. reflexivity.
    + exact (Hnp id' Hin Hstill).
  - intros id' [Hin | Hin].
    + apply Hids. left. apply elem_of_difference in Hin as [Hin _]. exact Hin.
    + apply elem_of_cons in Hin as [-> | Hin]; apply Hids; auto.
Qed.

Lemma onTimeout_consistent (id : string) (c : TimeTravelAPI) :
  Consistent c -> Consistent (onTimeout id c).
Proof.
  intros Hc. unfold onTimeout.
  case_bool_decide as Hp; [|exact Hc].
  apply settle_consistent; [exact Hc | exact Hp].
Qed.

(** A handler ignores every message that is not the response to its own
    request. *)
Lemma responseHandler_other (id : string) (data : option WindowMessage)
  (c : TimeTravelAPI) :
  (forall m, data = Some m ->
     m_type m <> "TIME_TRAVEL_RESPONSE" \/ m_requestId m <> Some id) ->
  responseHandler id data c = c.
Proof.
  intros Hother. unfold responseHandler. destruct data as [m|]; [|reflexivity].
  destruct (Hother m eq_refl) as [Hty | Hid].
  - destruct (String.eqb_spec (m_type m) "TIME_TRAVEL_RESPONSE");
      [contradiction | reflexivity].
  - rewrite (bool_decide_eq_false_2 _ Hid), andb_false_r. reflexivity.
Qed.

Lemma responseHandler_consistent (id : string) (data : option WindowMessage)
  (c : TimeTravelAPI) :
  Consistent c ->
  id ∈ listeners c ->
  Consistent (responseHandler id data c).
Proof.
  intros Hc Hin. unfold responseHandler. destruct data as [m|]; [|exact Hc].
  destruct (String.eqb (m_type m) "TIME_TRAVEL_RESPONSE"
            && bool_decide (m_requestId m = Some id)); [|exact Hc].
  apply settle_consistent; [exact Hc|]. rewrite <- (same_sets c Hc). exact Hin.
Qed.

(** Dispatching one message to a list of distinct registered handlers. *)
Lemma dispatch_consistent (data : option WindowMessage) (ids : list string)
  (c : TimeTravelAPI) :
  Consistent c ->
  NoDup ids ->
  (forall id, id ∈ ids -> id ∈ listeners c) ->
  Consistent (foldl (fun c id => responseHandler id data c) c ids).
Proof.
  revert c. induction ids as [|id ids IH]; intros c Hc Hnd Hreg; simpl;
    [exact Hc|].
  apply NoDup_cons in Hnd as [Hnotin Hnd].
  apply IH; [apply responseHandler_consistent; [exact Hc|] | exact Hnd |].
  - apply Hreg. left.
  - intros id' Hin'. assert (Hne : id' <> id) by (intros ->; contradiction).
    specialize (Hreg id' (list_elem_of_further _ _ _ Hin')).
    unfold responseHandler. destruct data as [m|]; [|exact Hreg].
    destruct (String.eqb (m_type m) "TIME_TRAVEL_RESPONSE"
              && bool_decide (m_requestId m = Some id)); [|exact Hreg].
    simpl. set_solver.
Qed.

Lemma onMessage_consistent (data : option WindowMessage) (c : TimeTravelAPI) :
  Consistent c -> Consistent (onMessage data c).
Proof.
  intros Hc. unfold onMessage. apply dispatch_consistent.
  - exact Hc.
  - apply NoDup_elements.
  - intros id Hin. apply elem_of_elements, Hin.
Qed.

Lemma run_consistent (events : list Event) (c : TimeTravelAPI) :
  Consistent c -> Consistent (run c events).
Proof.
  unfold run. revert c. induction events as [|e events IH]; intros c Hc; simpl;
    [exact Hc|].
  apply IH. destruct e as [now | data | id]; simpl.
  - apply sendMessage_consistent, Hc.
  - apply onMessage_consistent, Hc.
  - apply onTimeout_consistent, Hc.
Qed.

(** X20.  Whatever requests are sent, whatever messages arrive and whichever
    timers fire, in any order: the promise of a request is settled at most
    once (a response after the timeout, a timeout after the response and a
    repeated response are all ignored), a settled request is no longer
    pending, and the response handlers registered are exactly those of the
    pending requests. *)
Theorem requests_settle_at_most_once (events : list Event) :
  let c := run newClient events in
  NoDup (settled c).*1
  /\ (forall id, id ∈ (settled c).*1 -> id ∉ pendingRequests c)
  /\ listeners c = pendingRequests c.
Proof.
  intros c. destruct (run_consistent events newClient newClient_consistent)
    as [Hsame Hdup Hnp _].
  auto.
Qed.

(** A response and then the timeout of the same request: one settlement. *)
Example response_then_timeout :
  let id := requestIdOf 1700000000000 1 in
  let response := mkWindowMessage "TIME_TRAVEL_RESPONSE" (Some id) true None in
  settled (run newClient
             [Send 1700000000000; Message (Some response); Timeout id;
              Message (Some response)])
  = [(id, Resolved)].
Proof. vm_compute. reflexivity. Qed.

Lemma requests_settle_at_most_once_witness :
  let id := requestIdOf 1700000000000 1 in
  let response := mkWindowMessage "TIME_TRAVEL_RESPONSE" (Some id) true None in
  NoDup (settled (run newClient
                    [Send 1700000000000; Timeout id; Message (Some response)])).*1.
Proof.
  intros id response.
  apply (requests_settle_at_most_once
           [Send 1700000000000; Timeout id; Message (Some response)]).
Defined.

End Client.

(* ===================================================================== *)
(** * The coordinator and the tabs it may not touch *)
(* ===================================================================== *)

Module Tabs.
Import Js Storage ReplaceDate Worker System Spec StateStore Seeding.

(** Events that replace or remove the tab object of tab [t]. *)
Definition concerns (t : nat) (e : Event) : bool :=
  match e with
  | TabCreated tabId _ => bool_decide (tabId = t)
  | TabUpdated tabId _ _ => bool_decide (tabId = t)
  | TabRemoved tabId => bool_decide (tabId = t)
  | _ => false
  end.

(** Events that write the global state. *)
Definition writesStore (e : Event) : bool :=
  match e with
  | ApiUpdate _ _ _ => true
  | ApiDisable _ _ _ => true
  | PopupSetGlobalFakeTime _ _ _ _ => true
  | _ => false
  end.

(** Tab [t] is as it was: same tab object, same number of reloads. *)
Definition untouched (t : nat) (w w' : World) : Prop :=
  tabs w' !! t = tabs w !! t /\ reloadCount t w' = reloadCount t w.

Lemma untouched_refl (t : nat) (w : World) : untouched t w w.
Proof. split; reflexivity. Qed.

Lemma untouched_trans (t : nat) (w1 w2 w3 : World) :
  untouched t w1 w2 -> untouched t w2 w3 -> untouched t w1 w3.
Proof. intros [Ha Hb] [Hc Hd]. split; congruence. Qed.

Section Frames.
Context `{PageHost} `{Extension}.

(** A pass over a tab that is not eligible does nothing at all. *)
Lemma applyGlobalStateToTab_skips (t : nat) (tab : Tab) (w : World) :
  tabs w !! t = Some tab ->
  eligible tab = false ->
  applyGlobalStateToTab t w = w.
Proof.
  intros Htab Hel. unfold applyGlobalStateToTab. rewrite Htab.
  unfold eligible in Hel. destruct (url tab) as [[|c r]|]; try reflexivity.
  change (default "" (Some (String c r))) with (String c r).
  cbn [truthy negb orb andb] in *.
  destruct (isRestrictedUrl (String c r)); [reflexivity|].
  cbn [negb orb andb] in *. rewrite Hel. reflexivity.
Qed.

(** A pass over one tab leaves every other tab alone. *)
Lemma applyGlobalStateToTab_other (t tabId : nat) (w : World) :
  tabId <> t -> untouched t w (applyGlobalStateToTab tabId w).
Proof.
  intros Hne. unfold applyGlobalStateToTab.
  destruct (tabs w !! tabId) as [tab|]; [|apply untouched_refl].
  destruct (negb (truthy (url tab)) || isRestrictedUrl (default "" (url tab)));
    [apply untouched_refl|].
  destruct (negb (isAllowedWebsite (default "" (url tab))));
    [apply untouched_refl|].
  destruct (isGlobalEnabled (currentState (local w))
            && truthy (fakeDate (currentState (local w)))
            && negb (bool_decide (tabId ∈ reloadedTabs w))).
  - split; [reflexivity|].
    rewrite (Coordinator.reloadCount_cons t tabId w) by reflexivity.
    destruct (decide (tabId = t)); [contradiction | reflexivity].
  - split; [simpl; apply lookup_insert_ne, Hne | reflexivity].
Qed.

Lemma applyGlobalStateToTab_untouched (t tabId : nat) (tab : Tab) (w : World) :
  tabs w !! t = Some tab ->
  eligible tab = false ->
  untouched t w (applyGlobalStateToTab tabId w).
Proof.
  intros Htab Hel. destruct (decide (tabId = t)) as [-> | Hne].
  - rewrite (applyGlobalStateToTab_skips t tab w Htab Hel). apply untouched_refl.
  - apply applyGlobalStateToTab_other, Hne.
Qed.

Lemma foldl_applyToQueried_untouched (t : nat) (tab : Tab)
  (entries : list (nat * Tab)) (w : World) :
  tabs w !! t = Some tab ->
  eligible tab = false ->
  untouched t w (foldl applyToQueried w entries).
Proof.
  intros Htab Hel. revert w Htab.
  induction entries as [|entry entries IH]; intros w Htab; simpl.
  - apply untouched_refl.
  - assert (Hstep : untouched t w (applyToQueried w entry)).
    { unfold applyToQueried.
      destruct (bool_decide (entry.1 ≠ 0%nat) && eligible entry.2);
        [apply (applyGlobalStateToTab_untouched t _ tab w Htab Hel)
        | apply untouched_refl]. }
    eapply untouched_trans; [exact Hstep|]. apply IH.
    destruct Hstep as [Hsame _]. rewrite Hsame. exact Htab.
Qed.

Lemma applyGlobalStateToAllTabs_untouched (t : nat) (tab : Tab) (w : World) :
  tabs w !! t = Some tab ->
  eligible tab = false ->
  untouched t w (applyGlobalStateToAllTabs w).
Proof.
  intros Htab Hel. unfold applyGlobalStateToAllTabs.
  destruct (negb (isGlobalEnabled (currentState (local w))));
    [apply untouched_refl | apply (foldl_applyToQueried_untouched t tab _ w Htab Hel)].
Qed.

Lemma step_untouched (t : nat) (tab : Tab) (w : World) (e : Event) :
  tabs w !! t = Some tab ->
  eligible tab = false ->
  concerns t e = false ->
  untouched t w (step w e).
Proof.
  intros Htab Hel Hother. destruct e; simpl in *.
  - apply bool_decide_eq_false in Hother.
    unfold onCreated. destruct (bool_decide (tabId ≠ 0%nat)).
    + eapply untouched_trans; [|apply applyGlobalStateToTab_other, Hother].
      split; [simpl; apply lookup_insert_ne, Hother | reflexivity].
    + split; [simpl; apply lookup_insert_ne, Hother | reflexivity].
  - apply bool_decide_eq_false in Hother.
    unfold onUpdated. destruct (statusLoading && eligible tab0).
    + eapply untouched_trans; [|apply applyGlobalStateToTab_other, Hother].
      split; [simpl; apply lookup_insert_ne, Hother | reflexivity].
    + split; [simpl; apply lookup_insert_ne, Hother | reflexivity].
  - apply bool_decide_eq_false in Hother.
    split; [simpl; apply lookup_delete_ne, Hother | reflexivity].
  - unfold onMessage_active. destruct (bool_decide (tabId ≠ 0%nat));
      split; reflexivity.
  - apply (applyGlobalStateToAllTabs_untouched t tab w Htab Hel).
  - unfold onStorageChanged.
    apply (applyGlobalStateToAllTabs_untouched t tab
             (mkWorld (local w) (tabs w) (activeTabs w) ∅ (reloads w)) Htab Hel).
  - split; reflexivity.
  - split; reflexivity.
  - split; reflexivity.
Qed.

(** X21.  A tab that is not eligible (its URL unknown, empty, on a restricted
    scheme or off the allowed list) is never reloaded and its session
    storage is never written, through any sequence of events that leaves
    its tab object in place: other tabs coming and going, configuration
    changes and their notifications, reapply requests. *)
Theorem ineligible_tab_is_never_touched (t : nat) (tab : Tab) (w : World)
  (events : list Event) :
  tabs w !! t = Some tab ->
  eligible tab = false ->
  Forall (fun e => concerns t e = false) events ->
  tabs (run w events) !! t = Some tab
  /\ reloadCount t (run w events) = reloadCount t w.
Proof.
  intros Htab Hel Hall. unfold run. revert w Htab.
  induction events as [|e events IH]; intros w Htab; simpl; [auto|].
  inversion Hall as [|? ? He Hrest]; subst.
  destruct (step_untouched t tab w e Htab Hel He) as [Hsame Hcount].
  rewrite <- Hcount. apply (IH Hrest). rewrite Hsame. exact Htab.
Qed.

Lemma applyGlobalStateToTab_local (tabId : nat) (w : World) :
  local (applyGlobalStateToTab tabId w) = local w.
Proof.
  unfold applyGlobalStateToTab. repeat case_match; reflexivity.
Qed.

Lemma applyGlobalStateToAllTabs_local (w : World) :
  local (applyGlobalStateToAllTabs w) = local w.
Proof.
  unfold applyGlobalStateToAllTabs.
  destruct (negb (isGlobalEnabled (currentState (local w)))); [reflexivity|].
  generalize (map_to_list (tabs w)). intros entries. revert w.
  induction entries as [|entry entries IH]; intros w; simpl; [reflexivity|].
  rewrite IH. unfold applyToQueried.
  destruct (bool_decide (entry.1 ≠ 0%nat) && eligible entry.2);
    [apply applyGlobalStateToTab_local | reflexivity].
Qed.

(** X22.  No listener of the coordinator writes the global state: over events
    other than the external and popup requests, the storage area stays as
    it was. *)
Theorem coordinator_never_writes_the_store (w : World) (events : list Event) :
  Forall (fun e => writesStore e = false) events ->
  local (run w events) = local w.
Proof.
  intros Hall. unfold run. revert w.
  induction events as [|e events IH]; intros w; simpl; [reflexivity|].
  inversion Hall as [|? ? He Hrest]; subst. rewrite (IH Hrest).
  destruct e; simpl in *; try discriminate.
  - unfold onCreated. destruct (bool_decide (tabId ≠ 0%nat));
      [rewrite applyGlobalStateToTab_local|]; reflexivity.
  - unfold onUpdated. destruct (statusLoading && eligible tab);
      [rewrite applyGlobalStateToTab_local|]; reflexivity.
  - reflexivity.
  - unfold onMessage_active. destruct (bool_decide (tabId ≠ 0%nat)); reflexivity.
  - apply applyGlobalStateToAllTabs_local.
  - unfold onStorageChanged. rewrite applyGlobalStateToAllTabs_local. reflexivity.
Qed.

(** X23.  First activation of a tab.  For an eligible tab with an accessible
    session storage, an enabled state with a date and a tab not yet
    marked: the first pass marks the tab and reloads it without touching
    its storage; the second pass seeds the storage and reloads nothing;
    any further pass changes nothing. *)
Theorem first_activation_reloads_then_seeds (t : nat) (tab : Tab)
  (m : gmap string string) (w : World) :
  tabs w !! t = Some tab ->
  eligible tab = true ->
  storage tab = Items m ->
  effective (currentState (local w)) = true ->
  t ∉ reloadedTabs w ->
  let w1 := applyGlobalStateToTab t w in
  let w2 := applyGlobalStateToTab t w1 in
  (reloads w1 = t :: reloads w /\ tabs w1 = tabs w /\ t ∈ reloadedTabs w1)
  /\ (reloads w2 = reloads w1
      /\ tabs w2 !! t
         = Some (mkTab (url tab)
                   (seedSessionStorage (currentState (local w)) (Items m))))
  /\ applyGlobalStateToTab t w2 = w2.
Proof.
  intros Htab Hel Hss Heff Hnew.
  assert (Hurl : negb (truthy (url tab)) || isRestrictedUrl (default "" (url tab))
                 = false
                 /\ negb (isAllowedWebsite (default "" (url tab))) = false).
  { unfold eligible in Hel. destruct (url tab) as [u|]; [|discriminate].
    apply andb_true_iff in Hel as [Hel Hallow].
    apply andb_true_iff in Hel as [Htruthy Hrestr].
    simpl default. rewrite Htruthy, Hallow.
    apply negb_true_iff in Hrestr. rewrite Hrestr. auto. }
  destruct Hurl as [Hurl1 Hurl2]. unfold effective in Heff.
  assert (H1 : applyGlobalStateToTab t w
               = mkWorld (local w) (tabs w) (activeTabs w)
                   ({[t]} ∪ reloadedTabs w) (t :: reloads w)).
  { unfold applyGlobalStateToTab. rewrite Htab, Hurl1, Hurl2, Heff.
    rewrite (bool_decide_eq_false_2 _ Hnew). reflexivity. }
  set (tab' := mkTab (url tab)
                 (seedSessionStorage (currentState (local w)) (storage tab))).
  assert (H2 : applyGlobalStateToTab t (applyGlobalStateToTab t w)
               = mkWorld (local w) (<[t := tab']> (tabs w)) (activeTabs w)
                   ({[t]} ∪ reloadedTabs w) (t :: reloads w)).
  { rewrite H1. unfold applyGlobalStateToTab. simpl.
    rewrite Htab, Hurl1, Hurl2, Heff.
    rewrite bool_decide_eq_true_2 by set_solver. reflexivity. }
  intros w1 w2. unfold w2, w1. rewrite H2, H1. simpl.
  split; [split; [reflexivity | split; [reflexivity | set_solver]]|].
  split.
  - split; [reflexivity|]. rewrite lookup_insert_eq. unfold tab'.
    rewrite Hss. reflexivity.
  - unfold applyGlobalStateToTab. simpl. rewrite lookup_insert_eq. simpl.
    rewrite Hurl1, Hurl2, Heff.
    rewrite bool_decide_eq_true_2 by set_solver. simpl.
    rewrite seed_twice, insert_insert_eq. reflexivity.
Qed.

End Frames.

Lemma ineligible_tab_is_never_touched_witness :
  let settings := mkTab (Some "chrome://settings") (Items ∅) in
  let w := mkWorld Sample.emptyArea
             (<[ 2%nat := settings ]> {[ 1%nat := Sample.openTab Sample.unseeded ]})
             ∅ ∅ [] in
  tabs w !! 2%nat = Some settings
  /\ eligible (H := Sample.extension) settings = false
  /\ Forall (fun e => concerns 2 e = false) Sample.twoUpdates
  /\ tabs (run (H := Sample.host) (H0 := Sample.extension) w Sample.twoUpdates)
       !! 2%nat = Some settings.
Proof.
  intros settings w.
  assert (Htab : tabs w !! 2%nat = Some settings) by (vm_compute; reflexivity).
  assert (Hel : eligible (H := Sample.extension) settings = false)
    by (vm_compute; reflexivity).
  assert (Hall : Forall (fun e => concerns 2 e = false) Sample.twoUpdates)
    by (repeat constructor).
  split; [exact Htab|]. split; [exact Hel|]. split; [exact Hall|].
  apply (ineligible_tab_is_never_touched (H := Sample.host)
           (H0 := Sample.extension) 2 settings w Sample.twoUpdates Htab Hel Hall).
Defined.

Lemma coordinator_never_writes_the_store_witness :
  let events :=
    [ TabCreated 2 (Sample.openTab Sample.unseeded);
      GlobalStateChanged;
      ReapplyRequested;
      TabRemoved 1 ] in
  Forall (fun e => writesStore e = false) events
  /\ local (run (H := Sample.host) (H0 := Sample.extension)
              Sample.seededWorld events)
     = Sample.areaOf Sample.enabledStopped.
Proof.
  intros events.
  assert (Hall : Forall (fun e => writesStore e = false) events)
    by (repeat constructor).
  split; [exact Hall|].
  apply (coordinator_never_writes_the_store (H := Sample.host)
           (H0 := Sample.extension) Sample.seededWorld events Hall).
Defined.

Lemma first_activation_reloads_then_seeds_witness :
  let w := mkWorld (Sample.areaOf Sample.enabledStopped)
             {[ 1%nat := Sample.openTab Sample.unseeded ]} ∅ ∅ [] in
  let apply := applyGlobalStateToTab (H := Sample.extension) 1 in
  eligible (H := Sample.extension) (Sample.openTab Sample.unseeded) = true
  /\ reloads (apply (apply w)) = [1%nat]
  /\ tabs (apply (apply w)) !! 1%nat
     = Some (Sample.openTab
               (seedSessionStorage Sample.enabledStopped (Items ∅))).
Proof.
  intros w apply.
  assert (Hel : eligible (H := Sample.extension)
                  (Sample.openTab Sample.unseeded) = true)
    by (vm_compute; reflexivity).
  assert (Hnew : (1%nat) ∉ reloadedTabs w) by (simpl; set_solver).
  destruct (first_activation_reloads_then_seeds (H0 := Sample.extension) 1
              (Sample.openTab Sample.unseeded) ∅ w
              (lookup_singleton_eq _ _) Hel eq_refl eq_refl Hnew)
    as ((Hlog1 & _ & _) & (Hlog2 & Hseed) & _).
  split; [exact Hel|]. split.
  - unfold apply. rewrite Hlog2, Hlog1. reflexivity.
  - unfold apply. rewrite Hseed. reflexivity.
Defined.

End Tabs.

(* ===================================================================== *)
(** * Further concrete runs *)
(* ===================================================================== *)

Module FurtherRuns.
Import Js ReplaceDate ClockEngine.

(** [Number.MAX_SAFE_INTEGER]: up to 2^53 - 1 in magnitude every integer
    is a number of the script, and sums and differences that stay within
    it are exact. *)
Definition MAX_SAFE_INTEGER : Z := 9007199254740991.

(** The numbers of the script are IEEE 754 doubles, with 53 significant
    bits.  [toDouble z] is the double the exact integer result [z] of an
    operation is rounded to: the nearest integer with 53 significant bits,
    a tie going to the one whose last kept bit is even.  (Overflow to
    Infinity, beyond 2^1024, is left out.) *)
Definition toDouble (z : Z) : Z :=
  let m := Z.abs z in
  if m <=? MAX_SAFE_INTEGER then z
  else
    let e := Z.log2 m - 52 in
    let q := m / 2 ^ e in
    let r := m mod 2 ^ e in
    let half := 2 ^ (e - 1) in
    let q' := if (half <? r) || ((r =? half) && Z.odd q) then q + 1 else q in
    Z.sgn z * (q' * 2 ^ e).

(** [fakeDateObject.getTime() + (OriginalDate.now() - startTimestamp)] as
    the script evaluates it: every operand is a double and every operation
    rounds. *)
Definition doubleSum (f now t : Z) : Z :=
  toDouble (toDouble f + toDouble (toDouble now - toDouble t)).

(** A session storage whose anchor lies far in the past. *)
Definition ancientAnchor : SessionStorage :=
  Items (<[ TICK_START_STORAGE_KEY := "-9000000000000000" ]>
           {[ FAKE_DATE_STORAGE_KEY := Sample.christmas ]}).

Lemma toDouble_safe (z : Z) :
  Z.abs z <= MAX_SAFE_INTEGER -> toDouble z = z.
Proof.
  intros Hz. unfold toDouble. cbv zeta.
  destruct (Z.leb_spec (Z.abs z) MAX_SAFE_INTEGER); [reflexivity | lia].
Qed.

(** Rounding never brings a number from beyond the safe range back into
    it. *)
Lemma toDouble_large (z : Z) :
  MAX_SAFE_INTEGER < Z.abs z -> MAX_SAFE_INTEGER < Z.abs (toDouble z).
Proof.
  intros Hz. unfold toDouble. cbv zeta.
  destruct (Z.leb_spec (Z.abs z) MAX_SAFE_INTEGER) as [Hle|_]; [lia|].
  set (m := Z.abs z) in *.
  assert (Hm : 2 ^ 53 <= m) by (change (2 ^ 53) with 9007199254740992;
                                 unfold MAX_SAFE_INTEGER in Hz; lia).
  assert (Hlog : 53 <= Z.log2 m).
  { change 53 with (Z.log2 (2 ^ 53)). apply Z.log2_le_mono. exact Hm. }
  set (e := Z.log2 m - 52).
  assert (He : 1 <= e) by (unfold e; lia).
  assert (Hpow : 2 ^ Z.log2 m <= m).
  { apply Z.log2_spec. change (2 ^ 53) with 9007199254740992 in Hm. lia. }
  assert (Hsplit : 2 ^ Z.log2 m = 2 ^ e * 2 ^ 52).
  { rewrite <- Z.pow_add_r by lia. f_equal. unfold e. lia. }
  assert (Hpe : 2 <= 2 ^ e).
  { change 2 with (2 ^ 1) at 1. apply Z.pow_le_mono_r; lia. }
  assert (Hq : 2 ^ 52 <= m / 2 ^ e).
  { apply Z.div_le_lower_bound; [lia|]. rewrite <- Hsplit. exact Hpow. }
  set (q := m / 2 ^ e) in *.
  set (up := (2 ^ (e - 1) <? m mod 2 ^ e)
             || ((m mod 2 ^ e =? 2 ^ (e - 1)) && Z.odd q)).
  set (q' := if up then q + 1 else q).
  assert (Hq' : 2 ^ 52 <= q') by (unfold q'; destruct up; lia).
  assert (Hprod : 2 ^ 52 * 2 <= q' * 2 ^ e).
  { apply Z.mul_le_mono_nonneg; lia. }
  change (2 ^ 52 * 2) with 9007199254740992 in Hprod.
  unfold MAX_SAFE_INTEGER.
  assert (Hsgn : Z.abs (Z.sgn z * (q' * 2 ^ e)) = q' * 2 ^ e).
  { rewrite Z.abs_mul, (Z.abs_eq (q' * 2 ^ e)) by lia.
    unfold m, MAX_SAFE_INTEGER in Hz.
    destruct z; cbn [Z.sgn Z.abs]; lia. }
  rewrite Hsgn. lia.
Qed.

(** Within the safe range the exact sum and the sum in doubles give the
    same time value. *)
Lemma doubleSum_TimeClip (f now t : Z) :
  valid_time f -> valid_time now ->
  Z.abs t <= MAX_SAFE_INTEGER ->
  Z.abs (now - t) <= MAX_SAFE_INTEGER ->
  TimeClip (Num (doubleSum f now t)) = TimeClip (Num (f + (now - t))).
Proof.
  unfold valid_time, MAX_TIME. intros Hf Hnow Ht Hdiff. unfold doubleSum.
  rewrite (toDouble_safe f) by (unfold MAX_SAFE_INTEGER; lia).
  rewrite (toDouble_safe now) by (unfold MAX_SAFE_INTEGER; lia).
  rewrite (toDouble_safe t) by exact Ht.
  rewrite (toDouble_safe (now - t)) by exact Hdiff.
  destruct (Z.le_gt_cases (Z.abs (f + (now - t))) MAX_SAFE_INTEGER) as [Hs|Hs].
  - rewrite toDouble_safe by exact Hs. reflexivity.
  - pose proof (toDouble_large _ Hs) as Hbig.
    rewrite !JsFacts.TimeClip_out_of_range;
      [reflexivity | |];
      unfold valid_time, MAX_TIME; unfold MAX_SAFE_INTEGER in *; lia.
Qed.

(** Beyond the safe range the two part: an elapsed time of 2^53 + 1 is
    rounded to 2^53, and the sum lands on the last valid time value where
    the exact sum is one past it. *)
Lemma doubleSum_rounds_beyond_safe_range :
  let f := -367199254740992 in
  let now := 1700000000000 in
  let t := -9005499254740993 in
  now - t = 9007199254740993
  /\ toDouble (now - t) = 9007199254740992
  /\ doubleSum f now t = 8640000000000000
  /\ f + (now - t) = 8640000000000001
  /\ TimeClip (Num (doubleSum f now t)) = Num 8640000000000000
  /\ TimeClip (Num (f + (now - t))) = NaN.
Proof. vm_compute. repeat split. Qed.

Section Engine.
Context `{PageHost}.

(** A time value read off a Date is within the range of a Date. *)
Lemma getTime_newDate_string_valid (d : string) (f : Z) :
  getTime (newDate_string d) = Num f -> valid_time f.
Proof.
  unfold newDate_string. cbn [getTime].
  destruct (Date_parse d) as [|z]; cbn [TimeClip]; [discriminate|].
  unfold valid_time.
  destruct (Z.leb_spec (Z.abs z) MAX_TIME); [|discriminate].
  intros [= <-]. assumption.
Qed.

(** X24.  After [timeTravelCheckToggle] has run, [new Date()] and [Date.now()]
    in the page both resolve to [fakeNowDate] on the session storage,
    whichever way the toggle went: with a fake date through [FakeDate],
    without one through the genuine [Date], which is what [fakeNowDate]
    returns then. *)
Theorem toggled_reads_resolve_through_fakeNowDate (p : Page) (now : Z) :
  global_new_Date (timeTravelCheckToggle p) now
  = fakeNowDate (sessionStorage p) now
  /\ FakeDate_now (timeTravelCheckToggle p) now
     = getTime (fakeNowDate (sessionStorage p) now).
Proof. exact (reads_resolve_through_fakeNowDate p now). Qed.

(** X25.  With a fake date and a tick anchor seeded, two reads that both yield
    valid instants are ordered like the real instants at which they were
    taken: the running clock never goes backwards. *)
Theorem running_clock_never_goes_backwards (ss : SessionStorage)
  (now1 now2 v1 v2 : Z) (d a : string) :
  getFromStorage ss FAKE_DATE_STORAGE_KEY = Some d ->
  getFromStorage ss TICK_START_STORAGE_KEY = Some a ->
  getTime (fakeNowDate ss now1) = Num v1 ->
  getTime (fakeNowDate ss now2) = Num v2 ->
  now1 <= now2 -> v1 <= v2.
Proof. exact (fakeNowDate_running_monotone ss now1 now2 v1 v2 d a). Qed.

(** X26.  With a valid fake date and a numeric tick anchor seeded, a read
    at a real instant returns an Invalid Date whenever fake date +
    (now - anchor) lies outside the range a Date can hold.  The anchor and
    the elapsed time are taken below 2^53 in magnitude, where the numbers
    the script computes with are exact integers; the sum then either is
    exact as well or reaches 2^53 and with it lies beyond the range, so
    the sum rounded as the script rounds it is clipped to an invalid time
    value too. *)
Theorem running_clock_invalid_beyond_Date_range (ss : SessionStorage)
  (now f t : Z) (d a : string) :
  getFromStorage ss FAKE_DATE_STORAGE_KEY = Some d ->
  getFromStorage ss TICK_START_STORAGE_KEY = Some a ->
  getTime (newDate_string d) = Num f ->
  parseInt a = Num t ->
  valid_time now ->
  Z.abs t <= MAX_SAFE_INTEGER ->
  Z.abs (now - t) <= MAX_SAFE_INTEGER ->
  ~ valid_time (f + (now - t)) ->
  getTime (fakeNowDate ss now) = NaN
  /\ TimeClip (Num (doubleSum f now t)) = getTime (fakeNowDate ss now).
Proof.
  intros Hd Ha Hf Ht Hnow Hsafe Hdiff Hv.
  pose proof (fakeNowDate_running_out_of_range ss now f t d a Hd Ha Hf Ht Hv)
    as Hnan.
  split; [exact Hnan|].
  rewrite Hnan, doubleSum_TimeClip;
    eauto using getTime_newDate_string_valid, JsFacts.TimeClip_out_of_range.
Qed.

End Engine.

Section Switch.
Context `{Extension}.

(** X10.  On a store that can be read and written, [setGlobalFakeTime] called
    with [enabled] false, or with no date or an empty one, stores exactly
    the disabled state (not enabled, no date, no anchor, clock stopped),
    whatever was stored before and whatever clock flag was passed. *)
Theorem popup_disable_stores_the_disabled_state (now : Z) (enabled : bool)
  (d : option string) (isStopped : option bool)
  (w : option Storage.PartialGlobalState) :
  enabled && truthy d = false ->
  Popup.setGlobalFakeTime now enabled d isStopped (Storage.mkLocalArea true true w)
  = (Normal tt,
     Storage.mkLocalArea true true
       (Some (Storage.allProperties (Storage.mkGlobalState false None None true)))).
Proof.
  exact (Writers.setGlobalFakeTime_disable now enabled d isStopped w).
Qed.

End Switch.

Lemma running_clock_never_goes_backwards_witness :
  getFromStorage Sample.running FAKE_DATE_STORAGE_KEY = Some Sample.christmas
  /\ getFromStorage Sample.running TICK_START_STORAGE_KEY = Some "1700000000000"
  /\ getTime (fakeNowDate (H := Sample.host) Sample.running 1700000001000)
     = Num 1703500201000
  /\ getTime (fakeNowDate (H := Sample.host) Sample.running 1700000002000)
     = Num 1703500202000
  /\ 1700000001000 <= 1700000002000
  /\ 1703500201000 <= 1703500202000.
Proof.
  assert (Hd : getFromStorage Sample.running FAKE_DATE_STORAGE_KEY
               = Some Sample.christmas) by (vm_compute; reflexivity).
  assert (Ha : getFromStorage Sample.running TICK_START_STORAGE_KEY
               = Some "1700000000000") by (vm_compute; reflexivity).
  assert (H1 : getTime (fakeNowDate (H := Sample.host) Sample.running
                          1700000001000) = Num 1703500201000)
    by (vm_compute; reflexivity).
  assert (H2 : getTime (fakeNowDate (H := Sample.host) Sample.running
                          1700000002000) = Num 1703500202000)
    by (vm_compute; reflexivity).
  assert (Hle : 1700000001000 <= 1700000002000) by lia.
  repeat (split; [assumption|]).
  exact (running_clock_never_goes_backwards (H := Sample.host) Sample.running
           1700000001000 1700000002000 1703500201000 1703500202000
           Sample.christmas "1700000000000" Hd Ha H1 H2 Hle).
Defined.

Lemma running_clock_invalid_beyond_Date_range_witness :
  getFromStorage ancientAnchor FAKE_DATE_STORAGE_KEY = Some Sample.christmas
  /\ getFromStorage ancientAnchor TICK_START_STORAGE_KEY
     = Some "-9000000000000000"
  /\ getTime (newDate_string (H := Sample.host) Sample.christmas)
     = Num 1703500200000
  /\ parseInt "-9000000000000000" = Num (-9000000000000000)
  /\ valid_time 1700000002000
  /\ Z.abs (-9000000000000000) <= MAX_SAFE_INTEGER
  /\ Z.abs (1700000002000 - -9000000000000000) <= MAX_SAFE_INTEGER
  /\ ~ valid_time (1703500200000 + (1700000002000 - -9000000000000000))
  /\ getTime (fakeNowDate (H := Sample.host) ancientAnchor 1700000002000) = NaN
  /\ TimeClip (Num (doubleSum 1703500200000 1700000002000 (-9000000000000000)))
     = getTime (fakeNowDate (H := Sample.host) ancientAnchor 1700000002000).
Proof.
  assert (Hd : getFromStorage ancientAnchor FAKE_DATE_STORAGE_KEY
               = Some Sample.christmas) by (vm_compute; reflexivity).
  assert (Ha : getFromStorage ancientAnchor TICK_START_STORAGE_KEY
               = Some "-9000000000000000") by (vm_compute; reflexivity).
  assert (Hf : getTime (newDate_string (H := Sample.host) Sample.christmas)
               = Num 1703500200000) by (vm_compute; reflexivity).
  assert (Ht : parseInt "-9000000000000000" = Num (-9000000000000000))
    by (vm_compute; reflexivity).
  assert (Hnow : valid_time 1700000002000)
    by (unfold valid_time, MAX_TIME; lia).
  assert (Hsafe : Z.abs (-9000000000000000) <= MAX_SAFE_INTEGER)
    by (unfold MAX_SAFE_INTEGER; lia).
  assert (Hdiff : Z.abs (1700000002000 - -9000000000000000) <= MAX_SAFE_INTEGER)
    by (unfold MAX_SAFE_INTEGER; lia).
  assert (Hv : ~ valid_time (1703500200000 + (1700000002000 - -9000000000000000)))
    by (unfold valid_time, MAX_TIME; lia).
  repeat (split; [assumption|]).
  exact (running_clock_invalid_beyond_Date_range (H := Sample.host) ancientAnchor
           1700000002000 1703500200000 (-9000000000000000)
           Sample.christmas "-9000000000000000" Hd Ha Hf Ht Hnow Hsafe Hdiff Hv).
Defined.

Lemma popup_disable_stores_the_disabled_state_witness :
  true && truthy None = false
  /\ Popup.setGlobalFakeTime (H := Sample.extension) 1700000002000 true None
       (Some false) (Sample.areaOf Sample.enabledStopped)
     = (Normal tt,
        Sample.areaOf (Storage.mkGlobalState false None None true)).
Proof.
  split; [reflexivity|].
  apply (popup_disable_stores_the_disabled_state (H := Sample.extension)
           1700000002000 true None (Some false)
           (Some (Storage.allProperties Sample.enabledStopped)) eq_refl).
Defined.

End FurtherRuns.
